(** * decide / authentication: the views of [authentication/views.py]

    A shallow embedding of the authentication views of the voting platform
    and of the collaborators they call (the ORM tables of users and tokens,
    the session, the one-time-password engine), followed by the properties
    the design document states about them.

    Stateful code is written in state-passing style: a view takes the
    request and the [World] it runs in and returns its response together
    with the world it leaves behind. *)

From Stdlib Require Import ZArith List Bool Lia.
From stdpp Require Import base option list gmap strings.

Local Open Scope string_scope.
Local Open Scope Z_scope.

(** ** Exceptions and Python values *)

(** The exceptions the views can meet. *)
Inductive Exn :=
| DoesNotExist
| MultipleObjectsReturned
| IntegrityError
| TypeError
| ValueError
| BinasciiError
| AttributeError.

(** Truth value of a Python [str]: the empty string is false. *)
Definition truthy (s : string) : bool := negb (bool_decide (s = "")).

(** Truth value of an optional [str] ([None] is false). *)
Definition truthy_opt (o : option string) : bool :=
  match o with
  | Some s => truthy s
  | None => false
  end.

(** [d.get(k, '')] on a dictionary with string values. *)
Definition dict_get (d : gmap string string) (k : string) : string :=
  default "" (d !! k).

(** ** Models *)

Module Models.

(** A row of the user table ([CustomUser], an [AbstractUser] with the
    fields [secret] and [is_blocked]). [password] holds the encoded
    password, never the raw one. *)
Record CustomUser := mkUser {
  pk : Z;
  username : string;
  password : string;
  email : string;
  is_superuser : bool;
  is_blocked : bool;
  secret : option string
}.

#[global] Instance CustomUser_eq_dec : EqDecision CustomUser.
Proof. solve_decision. Defined.

Definition set_is_blocked (b : bool) (u : CustomUser) : CustomUser :=
  mkUser (pk u) (username u) (password u) (email u) (is_superuser u) b (secret u).

(** [Manager.get]: exactly one row must match the lookup. *)
Definition objects_get {A} (matching : list A) : Exn + A :=
  match matching with
  | [] => inl DoesNotExist
  | [x] => inr x
  | _ :: _ :: _ => inl MultipleObjectsReturned
  end.

(** [CustomUser.objects.get(username=name)]; a lookup on [None] (an absent
    form field) matches no row. *)
Definition get_by_username (name : option string) (users : list CustomUser)
  : Exn + CustomUser :=
  match name with
  | Some n => objects_get (filter (λ u, username u = n) users)
  | None => inl DoesNotExist
  end.

(** [CustomUser.objects.get(pk=i)]. *)
Definition get_by_pk (i : Z) (users : list CustomUser) : Exn + CustomUser :=
  objects_get (filter (λ u, pk u = i) users).

(** The key the database gives to a new row: one past the largest in use. *)
Definition next_pk (users : list CustomUser) : Z :=
  1 + foldr Z.max 0 (pk <$> users).

(** [user.save()] of an instance without primary key: an INSERT, refused
    with [IntegrityError] when the user name is taken (the column is
    unique). Returns the saved instance, which now has its key. *)
Definition insert_user (name pwd_encoded : string) (users : list CustomUser)
  : Exn + (CustomUser * list CustomUser) :=
  if bool_decide (Exists (λ u, username u = name) users) then inl IntegrityError
  else
    let u := mkUser (next_pk users) name pwd_encoded "" false false None in
    inr (u, (users ++ [u])%list).

(** [Token.objects.get(key=k)] on the token table, a map from the key (its
    primary key) to the owning user's key. *)
Definition token_get (k : string) (tokens : gmap string Z) : Exn + Z :=
  match tokens !! k with
  | Some uid => inr uid
  | None => inl DoesNotExist
  end.

(** [Token.objects.get_or_create(user=user)]: the user's token when there
    is one, else a new row under the freshly drawn key [fresh]; the insert
    is refused when that key is in use. *)
Definition token_get_or_create (uid : Z) (fresh : string) (tokens : gmap string Z)
  : Exn + (string * gmap string Z) :=
  match filter (λ kv : string * Z, kv.2 = uid) (map_to_list tokens) with
  | [] =>
      match tokens !! fresh with
      | None => inr (fresh, <[fresh := uid]> tokens)
      | Some _ => inl IntegrityError
      end
  | [kv] => inr (kv.1, tokens)
  | _ :: _ :: _ => inl MultipleObjectsReturned
  end.

End Models.
Export Models.

(** ** The world the views run in *)

(** The two tables, the module-level counter of [views.py] and the client's
    session (the key of the user it is authenticated as, if any). *)
Record World := mkWorld {
  users : list CustomUser;
  tokens : gmap string Z;
  user_failed_login_attempts : Z;
  session : option Z
}.

Definition set_users (us : list CustomUser) (w : World) : World :=
  mkWorld us (tokens w) (user_failed_login_attempts w) (session w).
Definition set_tokens (ts : gmap string Z) (w : World) : World :=
  mkWorld (users w) ts (user_failed_login_attempts w) (session w).
Definition set_attempts (n : Z) (w : World) : World :=
  mkWorld (users w) (tokens w) n (session w).
Definition set_session (s : option Z) (w : World) : World :=
  mkWorld (users w) (tokens w) (user_failed_login_attempts w) s.

(** ** Requests and responses *)

(** [request.user]: the middleware puts an [AnonymousUser] or the instance
    of the authenticated user there. *)
Inductive RequestUser :=
| AnonymousUser
| Authenticated (u : CustomUser).

Record HttpRequest := mkRequest {
  method : string;
  user : RequestUser;
  POST : gmap string string;
  data : gmap string string
}.

Inductive JSON :=
| JInt (n : Z)
| JStr (s : string).

(** Where a redirect goes: a named route with its arguments, or the
    framework's default after a login. *)
Inductive Url :=
| Reverse (name : string) (kwargs : list (string * Z))
| default_redirect_url.

Inductive HttpResponse :=
| Response (body : list (string * JSON)) (status : Z)
| redirect (to : Url)
| render (template : string)
| NotFound404
| Uncaught (e : Exn).

Definition HTTP_200_OK : Z := 200.
Definition HTTP_201_CREATED : Z := 201.
Definition HTTP_400_BAD_REQUEST : Z := 400.
Definition HTTP_401_UNAUTHORIZED : Z := 401.

Definition status_code (r : HttpResponse) : Z :=
  match r with
  | Response _ s => s
  | redirect _ => 302
  | render _ => 200
  | NotFound404 => 404
  | Uncaught _ => 500
  end.

(** ** Unicode text

    A [string] stands for text through its UTF-8 bytes. The engine compares
    codes after [unicodedata.normalize("NFKC", s)] of Python's standard
    library. ASCII text is its own normal form; what the normal form of other
    text is, is taken from the library as it is. *)

(** [unicodedata.normalize("NFKC", s)] on text that is not ASCII. *)
Class Unicode := { normalize_NFKC : string → string }.

(** [s.isascii()]: every byte is below 128. *)
Fixpoint is_ascii (s : string) : bool :=
  match s with
  | EmptyString => true
  | String c rest => (Ascii.N_of_ascii c <? 128)%N && is_ascii rest
  end.

(** The NFKC normal form of a text. *)
Definition NFKC {unicode : Unicode} (s : string) : string :=
  if is_ascii s then s else normalize_NFKC s.

(** ** The one-time-password engine

    [views.py] calls [pyotp.TOTP(secret).now()] and [.verify(code)]. The
    engine is a dependency of the repository; it is embedded here after the
    algorithm it implements (HMAC-SHA1 one-time passwords, RFC 4226, over
    the number of the 30-second time step, RFC 6238), with the defaults the
    views leave in place: six digits, SHA-1, a step of 30 seconds and
    [valid_window = 0]. Bytes and 32-bit words are integers with the
    wrap-around written out. *)

Module Pyotp.

(** *** SHA-1 *)

Definition mask32 (x : Z) : Z := Z.land x 0xFFFFFFFF.

Definition rotl (n x : Z) : Z :=
  Z.lor (mask32 (Z.shiftl x n)) (Z.shiftr x (32 - n)).

Definition add32 (x y : Z) : Z := mask32 (x + y).

(** Big-endian bytes of [x], [n] of them. *)
Fixpoint to_bytes (n : nat) (x : Z) : list Z :=
  match n with
  | O => []
  | S n' => (to_bytes n' (Z.shiftr x 8) ++ [Z.land x 0xFF])%list
  end.

Definition of_bytes (bs : list Z) : Z :=
  foldl (λ acc b, Z.lor (Z.shiftl acc 8) b) 0 bs.

(** Cuts [l] into pieces of [n] elements (the last one may be shorter). *)
Fixpoint chunks {A} (fuel n : nat) (l : list A) : list (list A) :=
  match fuel, l with
  | O, _ | _, [] => []
  | S fuel', _ => take n l :: chunks fuel' n (drop n l)
  end.

Definition sha1_pad (msg : list Z) : list Z :=
  let len := Z.of_nat (length msg) in
  (msg ++ [0x80] ++ replicate (Z.to_nat ((55 - len) mod 64)) 0
       ++ to_bytes 8 (8 * len))%list.

(** The message schedule: sixteen words of the block, extended to eighty. *)
Fixpoint schedule (n : nat) (w : list Z) : list Z :=
  match n with
  | O => w
  | S n' =>
      let t := length w in
      let x k := nth (t - k) w 0 in
      schedule n' (w ++ [rotl 1 (Z.lxor (Z.lxor (x 3%nat) (x 8%nat))
                                        (Z.lxor (x 14%nat) (x 16%nat)))])%list
  end.

Definition sha1_f (t b c d : Z) : Z :=
  if t <? 20 then Z.lor (Z.land b c) (Z.land (Z.lxor b 0xFFFFFFFF) d)
  else if t <? 40 then Z.lxor (Z.lxor b c) d
  else if t <? 60 then Z.lor (Z.lor (Z.land b c) (Z.land b d)) (Z.land c d)
  else Z.lxor (Z.lxor b c) d.

Definition sha1_k (t : Z) : Z :=
  if t <? 20 then 0x5A827999
  else if t <? 40 then 0x6ED9EBA1
  else if t <? 60 then 0x8F1BBCDC
  else 0xCA62C1D6.

Definition sha1_round (s : Z * Z * Z * Z * Z) (tw : Z * Z) : Z * Z * Z * Z * Z :=
  let '(a, b, c, d, e) := s in
  let '(t, w) := tw in
  let tmp := add32 (add32 (add32 (add32 (rotl 5 a) (sha1_f t b c d)) e) (sha1_k t)) w in
  (tmp, a, rotl 30 b, c, d).

Definition sha1_block (h : Z * Z * Z * Z * Z) (block : list Z) : Z * Z * Z * Z * Z :=
  let w := schedule 64 (of_bytes <$> chunks 16 4 block) in
  let '(a, b, c, d, e) := foldl sha1_round h (zip (Z.of_nat <$> seq 0 80) w) in
  let '(h0, h1, h2, h3, h4) := h in
  (add32 h0 a, add32 h1 b, add32 h2 c, add32 h3 d, add32 h4 e).

Definition sha1 (msg : list Z) : list Z :=
  let padded := sha1_pad msg in
  let '(h0, h1, h2, h3, h4) :=
    foldl sha1_block
          (0x67452301, 0xEFCDAB89, 0x98BADCFE, 0x10325476, 0xC3D2E1F0)
          (chunks (length padded) 64 padded) in
  (to_bytes 4 h0 ++ to_bytes 4 h1 ++ to_bytes 4 h2 ++ to_bytes 4 h3 ++ to_bytes 4 h4)%list.

(** *** HMAC *)

Definition hmac_sha1 (key msg : list Z) : list Z :=
  let key := if (64 <? Z.of_nat (length key)) then sha1 key else key in
  let key := (key ++ replicate (64 - length key) 0)%list in
  let inner := sha1 ((Z.lxor 0x36 <$> key) ++ msg)%list in
  sha1 ((Z.lxor 0x5C <$> key) ++ inner)%list.

(** *** Base32 secrets *)

Definition upper (c : Z) : Z := if (97 <=? c) && (c <=? 122) then c - 32 else c.

(** The value of a digit of the alphabet [A-Z2-7]. *)
Definition b32rev (c : Z) : option Z :=
  if (65 <=? c) && (c <=? 90) then Some (c - 65)
  else if (50 <=? c) && (c <=? 55) then Some (c - 24)
  else None.

Definition bytes_of_string (s : string) : list Z :=
  (λ c, Z.of_N (Ascii.N_of_ascii c)) <$> String.list_ascii_of_string s.

Fixpoint lstrip (c : Z) (cs : list Z) : list Z :=
  match cs with
  | x :: rest => if x =? c then lstrip c rest else cs
  | [] => []
  end.

(** [s.rstrip(b'=')] *)
Definition rstrip_pad (cs : list Z) : list Z :=
  List.rev (lstrip 61 (List.rev cs)).

(** The bytes one quantum of at most eight digits stands for. *)
Definition quantum_bytes (q : list Z) : list Z :=
  let k := 8 - Z.of_nat (length q) in
  let acc := Z.shiftl (foldl (λ acc v, Z.shiftl acc 5 + v) 0 q) (5 * k) in
  take (Z.to_nat ((43 - 5 * k) / 8)) (to_bytes 5 acc).

(** [base64.b32decode(s, casefold=True)]; a text with a character outside
    ASCII is refused with [ValueError] before anything is decoded. *)
Definition b32decode (s : list Z) : Exn + list Z :=
  if existsb (λ c, 127 <? c) s then inl ValueError else
  let s := upper <$> s in
  let l := Z.of_nat (length s) in
  let s := rstrip_pad s in
  let padchars := l - Z.of_nat (length s) in
  match mapM b32rev s with
  | None => inl BinasciiError
  | Some vs =>
      if negb (l mod 8 =? 0) || negb (bool_decide (padchars ∈ [0; 1; 3; 4; 6]))
      then inl BinasciiError
      else inr (concat (quantum_bytes <$> chunks (length vs) 8 vs))
  end.

(** [OTP.byte_secret]: the secret is padded to a multiple of eight digits
    and decoded. A secret that is [None] has no length. *)
Definition byte_secret (secret : option string) : Exn + list Z :=
  match secret with
  | None => inl TypeError
  | Some s =>
      let cs := bytes_of_string s in
      let missing_padding := Z.of_nat (length cs) mod 8 in
      let cs := if missing_padding =? 0 then cs
                else (cs ++ replicate (Z.to_nat (8 - missing_padding)) 61)%list in
      b32decode cs
  end.

(** *** One-time passwords *)

(** [OTP.int_to_bytestring(i)]: big-endian, at least eight bytes. *)
Definition int_to_bytestring (i : Z) : list Z :=
  let n := Z.to_nat ((Z.log2 i) / 8 + 1) in
  let result := if i =? 0 then [] else to_bytes n i in
  (replicate (8 - length result) 0 ++ result)%list.

(** The decimal digits of [x], the last [n] of them. *)
Fixpoint digits (n : nat) (x : Z) : string :=
  match n with
  | O => ""
  | S n' => digits n' (x / 10) +:+ String (Ascii.ascii_of_N (Z.to_N (48 + x mod 10))) ""
  end.

(** [OTP.generate_otp(input)] with six digits and SHA-1:
    [str(10_000_000_000 + code % 10 ** 6)[-6:]]. *)
Definition generate_otp (secret : option string) (input : Z) : Exn + string :=
  if input <? 0 then inl ValueError
  else
    match byte_secret secret with
    | inl e => inl e
    | inr key =>
        let hmac_hash := hmac_sha1 key (int_to_bytestring input) in
        let at_ i := nth (Z.to_nat i) hmac_hash 0 in
        let offset := Z.land (at_ 19) 0xF in
        let code :=
          Z.lor (Z.lor (Z.shiftl (Z.land (at_ offset) 0x7F) 24)
                       (Z.shiftl (Z.land (at_ (offset + 1)) 0xFF) 16))
                (Z.lor (Z.shiftl (Z.land (at_ (offset + 2)) 0xFF) 8)
                       (Z.land (at_ (offset + 3)) 0xFF)) in
        inr (digits 6 (10000000000 + code mod 10 ^ 6))
    end.

Definition interval : Z := 30.

(** [TOTP.timecode(for_time)]: [int(seconds / interval)], which truncates. *)
Definition timecode (for_time : Z) : Z := Z.quot for_time interval.

(** [TOTP.at(for_time, counter_offset)] *)
Definition at_time (secret : option string) (for_time counter_offset : Z)
  : Exn + string :=
  generate_otp secret (timecode for_time + counter_offset).

(** [TOTP.now()], at the clock reading [now] (seconds since the epoch). *)
Definition totp_now (secret : option string) (now : Z) : Exn + string :=
  generate_otp secret (timecode now).

(** [str(otp)] of the submitted code, which may be [None]. *)
Definition py_str (otp : option string) : string := default "None" otp.

(** [utils.strings_equal(s1, s2)]: both texts are normalised, then
    compared. *)
Definition strings_equal {unicode : Unicode} (s1 s2 : string) : bool :=
  bool_decide (NFKC s1 = NFKC s2).

(** [TOTP.verify(otp)] as the views call it: [for_time] is the clock
    reading and [valid_window] keeps its default 0, so the code is compared
    with the one of the current time step only. *)
Definition verify {unicode : Unicode} (secret : option string) (otp : option string)
           (now : Z) : Exn + bool :=
  match at_time secret now 0 with
  | inl e => inl e
  | inr expected => inr (strings_equal (py_str otp) expected)
  end.

End Pyotp.

(** ** Configuration and password hashing *)

(** [decide.settings]: the threshold of the lockout. *)
Class Settings := { AUTH_MAX_FAILED_LOGIN_ATTEMPTS : Z }.

(** [django.contrib.auth.hashers]: encoding a raw password and checking a
    raw password against an encoded one. *)
Class Hashers := {
  make_password : string → string;
  check_password : string → string → bool
}.

(** [django.contrib.auth.forms.AuthenticationForm], the form behind
    [LoginView], taken from the framework as it is: [form_get_user fields us]
    is the user for whom the form is valid on the submitted fields (it cleans
    the fields, authenticates against the user table [us] and asks whether the
    login is allowed), and [None] when the form is not valid. *)
Class AuthenticationForm := {
  form_get_user : gmap string string → list CustomUser → option CustomUser
}.

(** ** Collaborators of the views *)

(** [instance.save()] of a row that has its key: the row is rewritten. *)
Definition save_user (u' : CustomUser) (us : list CustomUser) : list CustomUser :=
  (λ u, if bool_decide (pk u = pk u') then u' else u) <$> us.

(** Modelled from the spec: [CustomUser.block_account] is defined in
    [models.py], which is not among the sources; the lockout guard "sets the
    account's [is_blocked] flag". *)
Definition block_account (usuario : CustomUser) (us : list CustomUser) : list CustomUser :=
  save_user (set_is_blocked true usuario) us.

(** Modelled from the spec: [UserSerializer] is defined in [serializers.py],
    which is not among the sources; it gives "the owning user's public
    profile (id, username -- never password hash or secret)". *)
Definition UserSerializer (u : CustomUser) : list (string * JSON) :=
  [("id", JInt (pk u)); ("username", JStr (username u))].

(** [django.contrib.auth.login(request, user)] and [logout(request)]: the
    session takes the user's key, or is flushed. *)
Definition auth_login (u : CustomUser) (w : World) : World := set_session (Some (pk u)) w.
Definition auth_logout (w : World) : World := set_session None w.

(** Python's [==] and [!=] between what [request.user] holds and a [str]:
    users compare by class and key, and no user object equals a string. *)
Inductive PyValue :=
| PyStr (s : string)
| PyUser (u : RequestUser).

Definition py_eq (a b : PyValue) : bool :=
  match a, b with
  | PyStr s, PyStr t => bool_decide (s = t)
  | PyUser AnonymousUser, PyUser AnonymousUser => true
  | PyUser (Authenticated u), PyUser (Authenticated v) => bool_decide (pk u = pk v)
  | _, _ => false
  end.

Definition py_ne (a b : PyValue) : bool := negb (py_eq a b).

(** ** The views *)

Section Views.
Context {settings : Settings} {hashers : Hashers}.
Context {form : AuthenticationForm} {unicode : Unicode}.

(** The first branch of [login2]: "El usuario no existe o la contraseña
    es incorrecta". *)
Definition login2_failed (request : HttpRequest) (w : World) : HttpResponse * World :=
  let w := set_attempts (user_failed_login_attempts w + 1) w in
  if AUTH_MAX_FAILED_LOGIN_ATTEMPTS <=? user_failed_login_attempts w then
    match get_by_username (POST request !! "username") (users w) with
    | inl e => (Uncaught e, w)
    | inr usuario =>
        (redirect (Reverse "registro" []), set_users (block_account usuario (users w)) w)
    end
  else (render "registration/login.html", w).

(** The second branch of [login2]: "El usuario ha iniciado sesión
    correctamente". *)
Definition login2_succeeded (request : HttpRequest) (w : World) : HttpResponse * World :=
  let w := set_attempts 0 w in
  match user request with
  | Authenticated u => (redirect (Reverse "home" []), auth_login u w)
  | AnonymousUser => (Uncaught AttributeError, w)
  end.

(** [Custom_loginView.login2] *)
Definition login2 (request : HttpRequest) (w : World) : HttpResponse * World :=
  if py_ne (PyUser (user request)) (PyStr "AnonymousUser")
  then login2_failed request w
  else login2_succeeded request w.

(** [Custom_loginView.get_success_url]; an [AnonymousUser] has no
    attribute [secret]. *)
Definition get_success_url (request : HttpRequest) (w : World) : Url * World :=
  match user request with
  | Authenticated u =>
      if truthy_opt (secret u) then
        let user_id := pk u in
        let success_url := Reverse "comprobarqr" [("user_id", user_id)] in
        (success_url, auth_logout w)
      else (default_redirect_url, w)
  | AnonymousUser => (default_redirect_url, w)
  end.

(** [LoginView.form_valid] of the framework, which [Custom_loginView]
    inherits: the user of the valid form is logged in (which also makes it
    [request.user]) and the answer redirects to [get_success_url]. *)
Definition form_valid (u : CustomUser) (request : HttpRequest) (w : World)
  : HttpResponse * World :=
  let w := auth_login u w in
  let request := mkRequest (method request) (Authenticated u) (POST request) (data request) in
  let '(url, w) := get_success_url request w in
  (redirect url, w).

(** A POST to [Custom_loginView]: the framework validates the
    authentication form and calls [form_valid] with its user, or shows the
    form again. *)
Definition Custom_loginView_post (request : HttpRequest) (w : World)
  : HttpResponse * World :=
  match form_get_user (POST request) (users w) with
  | Some u => form_valid u request w
  | None => (render "registration/login.html", w)
  end.

(** [comprobarqr(request, user_id)] at the clock reading [now]. *)
Definition comprobarqr (request : HttpRequest) (user_id : Z) (now : Z) (w : World)
  : HttpResponse * World :=
  if bool_decide (method request = "POST") then
    match get_by_pk user_id (users w) with
    | inl e => (Uncaught e, w)
    | inr u =>
        let codigo := POST request !! "codigo" in
        match Pyotp.totp_now (secret u) now with
        | inl e => (Uncaught e, w)
        | inr _ =>
            match Pyotp.verify (secret u) codigo now with
            | inl e => (Uncaught e, w)
            | inr true => (render "home.html", auth_login u w)
            | inr false => (render "2fa.html", w)
            end
        end
    end
  else (render "2fa.html", w).

(** [GetUserView.post]; [get_object_or_404] turns a missing token into the
    404 answer, and [tk.user] follows the token's foreign key. *)
Definition GetUserView_post (request : HttpRequest) (w : World) : HttpResponse * World :=
  let key := dict_get (data request) "token" in
  match token_get key (tokens w) with
  | inl _ => (NotFound404, w)
  | inr uid =>
      match get_by_pk uid (users w) with
      | inl e => (Uncaught e, w)
      | inr u => (Response (UserSerializer u) HTTP_200_OK, w)
      end
  end.

(** [LogoutView.post] *)
Definition LogoutView_post (request : HttpRequest) (w : World) : HttpResponse * World :=
  let key := dict_get (data request) "token" in
  let w :=
    match token_get key (tokens w) with
    | inr _ => set_tokens (delete key (tokens w)) w
    | inl _ => w
    end in
  (Response [] HTTP_200_OK, w).

(** [RegisterView.post]; [fresh] is the key [Token.generate_key] draws
    should a token be created. *)
Definition RegisterView_post (fresh : string) (request : HttpRequest) (w : World)
  : HttpResponse * World :=
  let key := dict_get (data request) "token" in
  match token_get key (tokens w) with
  | inl _ => (NotFound404, w)
  | inr uid =>
      match get_by_pk uid (users w) with
      | inl e => (Uncaught e, w)
      | inr tk_user =>
          if negb (is_superuser tk_user) then (Response [] HTTP_401_UNAUTHORIZED, w)
          else
            let username := dict_get (data request) "username" in
            let pwd := dict_get (data request) "password" in
            if negb (truthy username) || negb (truthy pwd)
            then (Response [] HTTP_400_BAD_REQUEST, w)
            else
              match insert_user username (make_password pwd) (users w) with
              | inl IntegrityError => (Response [] HTTP_400_BAD_REQUEST, w)
              | inl e => (Uncaught e, w)
              | inr (u, us') =>
                  let w := set_users us' w in
                  match token_get_or_create (pk u) fresh (tokens w) with
                  | inl IntegrityError => (Response [] HTTP_400_BAD_REQUEST, w)
                  | inl e => (Uncaught e, w)
                  | inr (k, ts') =>
                      (Response [("user_pk", JInt (pk u)); ("token", JStr k)] HTTP_201_CREATED,
                       set_tokens ts' w)
                  end
              end
      end
  end.

(** A client sending requests one after the other to the same view. *)
Fixpoint run {R} (view : R → World → HttpResponse * World)
         (requests : list R) (w : World) : list HttpResponse * World :=
  match requests with
  | [] => ([], w)
  | request :: rest =>
      let '(response, w) := view request w in
      let '(responses, w) := run view rest w in
      (response :: responses, w)
  end.

End Views.

(** A submission to [comprobarqr] together with the clock reading at which
    it is handled, and whether it carries the code of that moment. *)
Definition valid_try {unicode : Unicode} (secret_ : option string)
           (try : HttpRequest * Z) : bool :=
  bool_decide (method try.1 = "POST")
  && match Pyotp.verify secret_ (POST try.1 !! "codigo") try.2 with
     | inr true => true
     | _ => false
     end.

Definition comprobarqr_at {unicode : Unicode} (user_id : Z) (try : HttpRequest * Z)
           (w : World) : HttpResponse * World :=
  comprobarqr try.1 user_id try.2 w.

(** ** The login operation of the authentication service *)

Inductive LoginResult :=
| LoginToken (token : string)
| PendingTwoFactor (user_id : Z)
| InvalidCredentials
| AccountLocked.

Section Login.
Context {settings : Settings} {hashers : Hashers}.

(** Modelled from the spec: the lockout guard's [recordSuccess], which
    "resets counter to zero". The guard is not among the sources. *)
Definition recordSuccess (w : World) : World := set_attempts 0 w.

(** Modelled from the spec: the lockout guard's [recordFailure], which
    "increments the counter" and, "if count >= configured
    max_failed_attempts, sets the account's is_blocked flag and resets the
    counter to zero". The guard is not among the sources; the counter is
    the single one the world has. *)
Definition recordFailure (account_key : string) (w : World) : World :=
  let w := set_attempts (user_failed_login_attempts w + 1) w in
  if AUTH_MAX_FAILED_LOGIN_ATTEMPTS <=? user_failed_login_attempts w then
    let us :=
      match get_by_username (Some account_key) (users w) with
      | inr u => block_account u (users w)
      | inl _ => users w
      end in
    set_attempts 0 (set_users us w)
  else w.

(** Modelled from the spec: the [login] operation. The route
    [/authentication/login/] is bound outside [views.py], so the code that
    answers it is not among the sources (its tests are). The operation
    "looks up user by username"; unknown user or password mismatch fails
    with [InvalidCredentials] and is reported to the lockout guard; a
    blocked account fails with [AccountLocked]; without a secret a fresh
    token bound to the user is issued and the counter reset; with a secret
    no token is issued and the result is [PendingTwoFactor]. [fresh] is the
    key the token store draws. *)
Definition login (fresh : string) (name raw_password : string) (w : World)
  : LoginResult * World :=
  match get_by_username (Some name) (users w) with
  | inr u =>
      if check_password raw_password (password u) then
        if is_blocked u then (AccountLocked, w)
        else
          match secret u with
          | Some _ => (PendingTwoFactor (pk u), w)
          | None =>
              (LoginToken fresh,
               recordSuccess (set_tokens (<[fresh := pk u]> (tokens w)) w))
          end
      else (InvalidCredentials, recordFailure name w)
  | inl _ => (InvalidCredentials, recordFailure name w)
  end.

End Login.

(** The constraints the database keeps on the user table: primary keys and
    user names are unique. *)
Definition users_ok (us : list CustomUser) : Prop :=
  NoDup (pk <$> us) ∧ NoDup (username <$> us).

#[global] Instance users_ok_dec us : Decision (users_ok us).
Proof. unfold users_ok. apply _. Defined.

(** ** Enrolment in the second factor *)

(** What the deployment fixes for [dobleautenticacion]: the directory
    [BASE_DIR] of the project and [TOTP.provisioning_uri] of the engine,
    taken as it is (secret, account name, issuer). *)
Class Deployment := {
  BASE_DIR : string;
  provisioning_uri : string → string → string → string
}.

Definition set_secret (s : option string) (u : CustomUser) : CustomUser :=
  mkUser (pk u) (username u) (password u) (email u) (is_superuser u) (is_blocked u) s.

(** [os.path.join(a, b)] for two components on a POSIX system. *)
Definition os_path_join (a b : string) : string :=
  if String.prefix "/" b then b
  else if bool_decide (a = "")
          || bool_decide (String.substring (String.length a - 1)%nat 1 a = "/")
  then a +:+ b
  else a +:+ "/" +:+ b.

(** [request.user.username]; the name of an [AnonymousUser] is empty. *)
Definition request_username (request : HttpRequest) : string :=
  match user request with
  | Authenticated u => username u
  | AnonymousUser => ""
  end.

(** How [dobleautenticacion] ends: [login_required] sends an anonymous
    client to the login page; otherwise the view answers itself, and when it
    shows the page of the QR code it has written the image of [qr_texto] to
    the file [camino] and passes [datos] to the template. *)
Inductive EnrolOutcome :=
| LoginRequired
| Answer (response : HttpResponse)
| QrPage (datos : list (string * string)) (camino qr_texto : string).

Section Enrolment.
Context {deployment : Deployment}.

(** [dobleautenticacion(request, user_id)]; [secreto] is what
    [pyotp.random_base32] draws. *)
Definition dobleautenticacion (secreto : string) (request : HttpRequest) (user_id : Z)
           (w : World) : EnrolOutcome * World :=
  match user request with
  | AnonymousUser => (LoginRequired, w)
  | Authenticated _ =>
      if bool_decide (method request = "POST") then (Answer (redirect (Reverse "home" [])), w)
      else
        match get_by_pk user_id (users w) with
        | inl DoesNotExist => (Answer NotFound404, w)
        | inl e => (Answer (Uncaught e), w)
        | inr u =>
            let u := set_secret (Some secreto) u in
            let w := set_users (save_user u (users w)) w in
            let qr_texto := provisioning_uri secreto (request_username request) "Decide App" in
            let raiz := os_path_join BASE_DIR "authentication/static" in
            let camino := raiz +:+ "/" +:+ request_username request +:+ ".png" in
            let camino_foto := "/static/" +:+ request_username request +:+ ".png" in
            let datos := [("qr_text", qr_texto); ("camino", camino_foto)] in
            (QrPage datos camino qr_texto, w)
        end
  end.

End Enrolment.

(** ** What a successful registration stores *)

Section Registered.
Context {hashers : Hashers}.

(** The row [RegisterView.post] inserts for the payload of [request]: the
    next key, the name, the encoded password, and the defaults of the model
    for the rest. *)
Definition registered (request : HttpRequest) (w : World) : CustomUser :=
  mkUser (next_pk (users w)) (dict_get (data request) "username")
         (make_password (dict_get (data request) "password")) "" false false None.

(** The world with that row appended and a token under the key [fresh]
    for it. *)
Definition after_register (fresh : string) (request : HttpRequest) (w : World) : World :=
  set_tokens (<[fresh := next_pk (users w)]> (tokens w))
             (set_users (users w ++ [registered request w])%list w).

End Registered.

(** ** Consistency of the database *)

(** Every token belongs to a stored user (the foreign key of the token
    table). *)
Definition tokens_ok (w : World) : Prop :=
  ∀ k uid, tokens w !! k = Some uid → uid ∈ pk <$> users w.

#[global] Instance tokens_ok_dec w : Decision (tokens_ok w).
Proof.
  change (Decision (map_Forall (λ (_ : string) (uid : Z), uid ∈ pk <$> users w) (tokens w))).
  apply map_Forall_dec. intros k uid. cbn beta. apply _.
Defined.

Definition db_ok (w : World) : Prop := users_ok (users w) ∧ tokens_ok w.

#[global] Instance db_ok_dec w : Decision (db_ok w).
Proof. unfold db_ok. apply _. Defined.

(** The one field in which a view may change a stored row: the block. *)
Definition same_or_blocked (x y : CustomUser) : Prop :=
  y = x ∨ y = set_is_blocked true x.

(** ** The fixtures of the test suite

    [AuthTestCase.setUp] creates the users [voter1], [admin] (a superuser)
    and [rafaeldavidgg]; the hashers of the fixture keep the raw password
    behind a prefix. *)

Definition test_hashers : Hashers := {|
  make_password raw := "plain$" +:+ raw;
  check_password raw encoded := bool_decide (encoded = "plain$" +:+ raw)
|}.

(** A stand-in for the framework's login form in the fixtures: it accepts
    the name and the raw password of a stored user as they are submitted.
    The names and passwords of the fixtures are ones the framework's cleaning
    leaves as they are. *)
Definition test_form : AuthenticationForm := {|
  form_get_user fields us :=
    match get_by_username (fields !! "username") us, fields !! "password" with
    | inr u, Some raw =>
        if check_password (Hashers := test_hashers) raw (password u) then Some u else None
    | _, _ => None
    end
|}.

Definition voter1 : CustomUser := mkUser 1 "voter1" "plain$123" "" false false None.
Definition admin : CustomUser := mkUser 2 "admin" "plain$admin" "" true false None.
Definition rafaeldavidgg : CustomUser :=
  mkUser 3 "rafaeldavidgg" "plain$decidepass123" "rafaeldgarciagalocha@gmail.com"
         false false None.

Definition setUp : World := mkWorld [voter1; admin; rafaeldavidgg] ∅ 0 None.

(** The world once [voter1] and [admin] hold a token each. *)
Definition logged_in : World :=
  set_tokens (<["token-of-admin" := 2]> (<["token-of-voter1" := 1]> ∅)) setUp.

(** A user enrolled in two-factor authentication, with the secret of the
    test vectors of RFC 4226 (the bytes [12345678901234567890]). *)
Definition voter2fa : CustomUser :=
  mkUser 4 "voter2fa" "plain$456" "" false false (Some "GEZDGNBVGY3TQOJQGEZDGNBVGY3TQOJQ").

Definition enrolled : World := set_users [voter1; admin; rafaeldavidgg; voter2fa] setUp.

(** A JSON request carrying [payload]. *)
Definition api_request (payload : list (string * string)) : HttpRequest :=
  mkRequest "POST" AnonymousUser ∅ (list_to_map payload).

(** A form submission of an anonymous client. *)
Definition form_request (fields : list (string * string)) : HttpRequest :=
  mkRequest "POST" AnonymousUser (list_to_map fields) ∅.

(** The threshold the fixtures run with. *)
Definition test_settings : Settings := {| AUTH_MAX_FAILED_LOGIN_ATTEMPTS := 3 |}.

(** A failed attempt of the suite: [voter1] with a wrong password. *)
Definition wrong_password : HttpRequest :=
  form_request [("username", "voter1"); ("password", "321")].

(** A successful login: [voter1] submits the right password and the
    middleware has authenticated the request. *)
Definition right_password : HttpRequest :=
  mkRequest "POST" (Authenticated voter1)
            (list_to_map [("username", "voter1"); ("password", "123")]) ∅.

(** [voter2fa] submits the login form with the right password. *)
Definition login_voter2fa : HttpRequest :=
  form_request [("username", "voter2fa"); ("password", "456")].

(** Three submissions: a wrong code, the code of the previous step, and the
    code of the moment. *)
Definition three_tries : list (HttpRequest * Z) :=
  [(form_request [("codigo", "000000")], 59);
   (form_request [("codigo", "287082")], 60);
   (form_request [("codigo", "359152")], 61)].

(** The deployment of the fixtures; the URI is the one the engine builds
    for names without reserved characters. *)
Definition test_deployment : Deployment := {|
  BASE_DIR := "/srv/decide";
  provisioning_uri secret_ name issuer :=
    "otpauth://totp/Decide%20App:" +:+ name +:+ "?secret=" +:+ secret_
    +:+ "&issuer=Decide%20App"
|}.

(** An authenticated request of [voter1] without payload. *)
Definition get_as_voter1 : HttpRequest := mkRequest "GET" (Authenticated voter1) ∅ ∅.

(** A login attempt on the account of [u]: a submission of the login form
    naming [u]. It is a failed attempt when the middleware has not
    authenticated the client. *)
Definition attempt_on (u : CustomUser) (request : HttpRequest) : Prop :=
  POST request !! "username" = Some (username u).

Definition failed_attempt_on (u : CustomUser) (request : HttpRequest) : Prop :=
  user request = AnonymousUser ∧ attempt_on u request.

(** * Properties *)

(** ** Lookups in a table with unique keys *)

Lemma filter_no_key {A B} `{EqDecision B} (f : A → B) (l : list A) (b : B) :
  b ∉ f <$> l → filter (λ y, f y = b) l = [].
Proof.
  induction l as [|a l IH]; intros Hb; [done|].
  rewrite fmap_cons in Hb. apply not_elem_of_cons in Hb as [Hne Hb].
  rewrite filter_cons_False by congruence. by apply IH.
Qed.

Lemma filter_unique_key {A B} `{EqDecision B} (f : A → B) (l : list A) (x : A) :
  NoDup (f <$> l) → x ∈ l → filter (λ y, f y = f x) l = [x].
Proof.
  induction l as [|a l IH]; intros Hnd Hin.
  - by apply elem_of_nil in Hin.
  - rewrite fmap_cons in Hnd. apply NoDup_cons in Hnd as [Hfresh Hnd].
    apply elem_of_cons in Hin as [->|Hin].
    + rewrite filter_cons_True by done. f_equal. by apply filter_no_key.
    + rewrite filter_cons_False; [by apply IH|].
      intros Heq. apply Hfresh. rewrite Heq. by apply list_elem_of_fmap_2.
Qed.

Lemma get_by_pk_elem (us : list CustomUser) (u : CustomUser) :
  users_ok us → u ∈ us → get_by_pk (pk u) us = inr u.
Proof.
  intros [Hpk _] Hin. unfold get_by_pk.
  by rewrite (filter_unique_key pk us u Hpk Hin).
Qed.

Lemma get_by_username_elem (us : list CustomUser) (u : CustomUser) :
  users_ok us → u ∈ us → get_by_username (Some (username u)) us = inr u.
Proof.
  intros [_ Hname] Hin. unfold get_by_username.
  by rewrite (filter_unique_key username us u Hname Hin).
Qed.

(** ** Tokens: lookup, revocation *)

Lemma set_tokens_same (w : World) : set_tokens (tokens w) w = w.
Proof. by destruct w. Qed.

(** C5: [logout] answers with success whether or not the token exists, it
    leaves a world that differs from the old one in the token table only,
    from which the token is deleted (nothing changes when it was absent);
    [getUser] on the same token afterwards answers 404, and a second
    [logout] changes nothing. *)
Theorem logout_revokes_token (request : HttpRequest) (w : World) :
  let key := dict_get (data request) "token" in
  let w' := set_tokens (delete key (tokens w)) w in
  LogoutView_post request w = (Response [] HTTP_200_OK, w')
  ∧ tokens w' !! key = None
  ∧ GetUserView_post request w' = (NotFound404, w')
  ∧ LogoutView_post request w' = (Response [] HTTP_200_OK, w').
Proof.
  intros key w'.
  assert (Hgone : tokens w' !! key = None) by apply lookup_delete_eq.
  repeat split.
  - unfold LogoutView_post, token_get. fold key.
    destruct (tokens w !! key) as [uid|] eqn:Hk; [done|].
    unfold w'. by rewrite delete_id, set_tokens_same.
  - done.
  - unfold GetUserView_post, token_get. fold key. by rewrite Hgone.
  - unfold LogoutView_post, token_get. fold key. by rewrite Hgone.
Qed.

(** ** Registration by an administrator *)

Section Registration.
Context {hashers : Hashers}.

(** C10: the token is looked up before anything else: when the request's
    token is not in the token table the answer is 404 whatever the payload
    (empty or duplicate user name or password included), and the world is
    left as it was, so no user is created. *)
Theorem register_unknown_token_not_found (fresh : string) (request : HttpRequest)
        (w : World) :
  tokens w !! dict_get (data request) "token" = None →
  RegisterView_post fresh request w = (NotFound404, w).
Proof. intros Hmiss. unfold RegisterView_post, token_get. by rewrite Hmiss. Qed.

(** C7: when the request's token belongs to a user who is not a superuser
    the answer is 401 whatever the payload, and the world is left as it
    was, so no user is created. *)
Theorem register_non_superuser_unauthorized (fresh : string) (request : HttpRequest)
        (w : World) (uid : Z) (u : CustomUser) :
  tokens w !! dict_get (data request) "token" = Some uid →
  get_by_pk uid (users w) = inr u →
  is_superuser u = false →
  RegisterView_post fresh request w = (Response [] HTTP_401_UNAUTHORIZED, w).
Proof.
  intros Htk Hu Hsu. unfold RegisterView_post, token_get.
  by rewrite Htk, Hu, Hsu.
Qed.

Lemma insert_user_taken (name encoded : string) (us : list CustomUser) (u : CustomUser) :
  u ∈ us → username u = name → insert_user name encoded us = inl IntegrityError.
Proof.
  intros Hin Hname. unfold insert_user.
  rewrite bool_decide_eq_true_2; [done|].
  apply Exists_exists. eauto.
Qed.

(** C8: when the request's token belongs to a superuser and the user name
    of the payload is the name of a stored user, the answer is 400 and the
    world is left as it was, the stored user included. *)
Theorem register_duplicate_bad_request (fresh : string) (request : HttpRequest)
        (w : World) (uid : Z) (su existing : CustomUser) :
  tokens w !! dict_get (data request) "token" = Some uid →
  get_by_pk uid (users w) = inr su →
  is_superuser su = true →
  existing ∈ users w →
  username existing = dict_get (data request) "username" →
  RegisterView_post fresh request w = (Response [] HTTP_400_BAD_REQUEST, w).
Proof.
  intros Htk Hsu Hsuper Hin Hname. unfold RegisterView_post, token_get.
  rewrite Htk, Hsu, Hsuper. cbn [negb].
  destruct (negb (truthy _) || negb (truthy _)); [done|].
  by rewrite (insert_user_taken _ _ _ existing Hin Hname).
Qed.

End Registration.

Lemma register_non_superuser_unauthorized_witness :
  RegisterView_post (hashers := test_hashers) "fresh"
    (api_request [("token", "token-of-voter1"); ("username", "user1")]) logged_in
  = (Response [] HTTP_401_UNAUTHORIZED, logged_in).
Proof.
  apply (register_non_superuser_unauthorized (hashers := test_hashers)
           "fresh" _ logged_in 1 voter1); reflexivity.
Defined.

Lemma register_unknown_token_not_found_witness :
  RegisterView_post (hashers := test_hashers) "fresh"
    (api_request [("token", "invented"); ("username", "admin"); ("password", "")]) logged_in
  = (NotFound404, logged_in).
Proof.
  apply (register_unknown_token_not_found (hashers := test_hashers)); reflexivity.
Defined.

Lemma register_duplicate_bad_request_witness :
  RegisterView_post (hashers := test_hashers) "fresh"
    (api_request [("token", "token-of-admin"); ("username", "admin"); ("password", "admin")])
    logged_in
  = (Response [] HTTP_400_BAD_REQUEST, logged_in).
Proof.
  apply (register_duplicate_bad_request (hashers := test_hashers)
           "fresh" _ logged_in 2 admin admin); try reflexivity.
  unfold logged_in, setUp; simpl. set_solver.
Defined.

(** The scenarios of [tests.py] on these views, on the embedding. *)
Example test_getuser_invented_token :
  GetUserView_post (api_request [("token", "invented")]) logged_in = (NotFound404, logged_in).
Proof. reflexivity. Qed.

Example test_logout :
  (LogoutView_post (api_request [("token", "token-of-voter1")]) logged_in).1
  = Response [] HTTP_200_OK
  ∧ tokens (LogoutView_post (api_request [("token", "token-of-voter1")]) logged_in).2
    = {["token-of-admin" := 2]}.
Proof. split; [reflexivity|]. apply map_eq. intros k. vm_compute. reflexivity. Qed.

Example test_register_bad_request :
  (RegisterView_post (hashers := test_hashers) "fresh"
     (api_request [("token", "token-of-admin"); ("username", "user1")]) logged_in).1
  = Response [] HTTP_400_BAD_REQUEST.
Proof. reflexivity. Qed.

Example test_register :
  (RegisterView_post (hashers := test_hashers) "fresh"
     (api_request [("token", "token-of-admin"); ("username", "user1"); ("password", "pwd1")])
     logged_in).1
  = Response [("user_pk", JInt 4); ("token", JStr "fresh")] HTTP_201_CREATED.
Proof. vm_compute. reflexivity. Qed.

(** ** Login, then who am I *)

Section LoginGetUser.
Context {settings : Settings} {hashers : Hashers}.

(** C4: for a stored user that is not blocked and has no secret, and a
    password that checks against the stored one, [login] returns a token,
    and [getUser] on that token, in the world [login] leaves, answers 200
    with the id and the name of that same user. *)
Theorem login_then_getuser (fresh raw_password : string) (w : World) (u : CustomUser) :
  users_ok (users w) →
  u ∈ users w →
  check_password raw_password (password u) = true →
  is_blocked u = false →
  secret u = None →
  ∃ w', login fresh (username u) raw_password w = (LoginToken fresh, w')
        ∧ GetUserView_post (api_request [("token", fresh)]) w'
          = (Response [("id", JInt (pk u)); ("username", JStr (username u))] HTTP_200_OK, w').
Proof.
  intros Hok Hin Hpwd Hblocked Hsecret. eexists. split.
  - unfold login.
    by rewrite (get_by_username_elem _ _ Hok Hin), Hpwd, Hblocked, Hsecret.
  - unfold GetUserView_post, api_request, dict_get, token_get. cbn.
    rewrite insert_empty, lookup_singleton_eq. cbn.
    rewrite lookup_insert_eq.
    by rewrite (get_by_pk_elem _ _ Hok Hin).
Qed.

End LoginGetUser.

Lemma login_then_getuser_witness :
  ∃ w', login (settings := test_settings) (hashers := test_hashers)
              "token-of-voter1" "voter1" "123" setUp
        = (LoginToken "token-of-voter1", w')
        ∧ GetUserView_post (api_request [("token", "token-of-voter1")]) w'
          = (Response [("id", JInt 1); ("username", JStr "voter1")] HTTP_200_OK, w').
Proof.
  apply (login_then_getuser (settings := test_settings) (hashers := test_hashers)
           "token-of-voter1" "123" setUp voter1); try reflexivity.
  - apply (bool_decide_unpack _). vm_compute. exact I.
  - unfold setUp; simpl. set_solver.
Defined.

(** ** The lockout counter of [login2] *)

Lemma NoDup_fmap_elem_inj {A B} `{EqDecision B} (f : A → B) (l : list A) (x y : A) :
  NoDup (f <$> l) → x ∈ l → y ∈ l → f y = f x → y = x.
Proof.
  intros Hnd Hx Hy Heq.
  assert (Hy' : y ∈ filter (λ z, f z = f x) l) by by apply list_elem_of_filter.
  rewrite (filter_unique_key f l x Hnd Hx) in Hy'.
  by apply list_elem_of_singleton in Hy'.
Qed.

(** Blocking a stored account rewrites its row and nothing else: keys and
    names stay as they were. *)
Lemma block_account_ok (us : list CustomUser) (u : CustomUser) :
  users_ok us → u ∈ us →
  users_ok (block_account u us) ∧ set_is_blocked true u ∈ block_account u us.
Proof.
  intros [Hpk Hname] Hin. unfold block_account, save_user.
  change (pk (set_is_blocked true u)) with (pk u).
  assert (Hrow : ∀ x, x ∈ us →
            (if bool_decide (pk x = pk u) then set_is_blocked true u else x)
            = (if bool_decide (x = u) then set_is_blocked true u else x)).
  { intros x Hx. destruct (decide (x = u)) as [->|Hne].
    - by rewrite !bool_decide_eq_true_2.
    - rewrite !bool_decide_eq_false_2; [done|done|].
      intros Heq. apply Hne. by apply (NoDup_fmap_elem_inj pk us). }
  split; [split|].
  - replace (pk <$> _) with (pk <$> us); [done|].
    rewrite <-list_fmap_compose. apply Forall_fmap_ext_1, Forall_forall.
    intros x Hx. unfold compose. rewrite (Hrow x Hx). by case_bool_decide; subst.
  - replace (username <$> _) with (username <$> us); [done|].
    rewrite <-list_fmap_compose. apply Forall_fmap_ext_1, Forall_forall.
    intros x Hx. unfold compose. rewrite (Hrow x Hx). by case_bool_decide; subst.
  - apply list_elem_of_fmap. exists u. split; [|done].
    by rewrite bool_decide_eq_true_2.
Qed.

Lemma block_account_get (us : list CustomUser) (u : CustomUser) :
  users_ok us → u ∈ us →
  get_by_username (Some (username u)) (block_account u us) = inr (set_is_blocked true u).
Proof.
  intros Hok Hin. destruct (block_account_ok us u Hok Hin) as [Hok' Hin'].
  apply (get_by_username_elem _ _ Hok' Hin').
Qed.

Section Lockout.
Context {settings : Settings}.

Local Abbreviation N := AUTH_MAX_FAILED_LOGIN_ATTEMPTS.
Local Abbreviation attempts := user_failed_login_attempts.

Lemma login2_guard (request : HttpRequest) :
  py_ne (PyUser (user request)) (PyStr "AnonymousUser") = true.
Proof. by destruct (user request). Qed.

(** C9: whatever the request, the guard of [login2] holds (a user object
    never equals the string it is compared with), so [login2] is its
    failed-attempt branch: the counter goes up by one and the session is
    left alone; the branch that resets the counter and logs the user in is
    never taken. *)
Theorem login2_always_counts_a_failure (request : HttpRequest) (w : World) :
  py_ne (PyUser (user request)) (PyStr "AnonymousUser") = true
  ∧ login2 request w = login2_failed request w
  ∧ attempts (login2 request w).2 = attempts w + 1
  ∧ session (login2 request w).2 = session w
  ∧ (login2 request w).1 ≠ redirect (Reverse "home" []).
Proof.
  assert (Hfailed : login2 request w = login2_failed request w).
  { unfold login2. by rewrite login2_guard. }
  split; [apply login2_guard|]. split; [done|]. rewrite Hfailed.
  unfold login2_failed. cbn [attempts set_attempts].
  destruct (N <=? attempts w + 1); [|done].
  by destruct (get_by_username _ _).
Qed.

Lemma login2_below (request : HttpRequest) (w : World) :
  attempts w + 1 < N →
  login2 request w
  = (render "registration/login.html", set_attempts (attempts w + 1) w).
Proof.
  intros Hlt. unfold login2. rewrite login2_guard.
  unfold login2_failed. cbn [attempts set_attempts].
  by rewrite (proj2 (Z.leb_gt _ _) Hlt).
Qed.

Lemma login2_reached (request : HttpRequest) (w : World) (u : CustomUser) :
  N ≤ attempts w + 1 →
  get_by_username (POST request !! "username") (users w) = inr u →
  login2 request w
  = (redirect (Reverse "registro" []),
     set_users (block_account u (users w)) (set_attempts (attempts w + 1) w)).
Proof.
  intros Hle Hu. unfold login2. rewrite login2_guard.
  unfold login2_failed. cbn [attempts set_attempts users].
  by rewrite (proj2 (Z.leb_le _ _) Hle), Hu.
Qed.

(** Below the threshold every attempt shows the form again and is counted. *)
Lemma run_login2_below (requests : list HttpRequest) (w : World) :
  attempts w + Z.of_nat (length requests) < N →
  run login2 requests w
  = (replicate (length requests) (render "registration/login.html"),
     set_attempts (attempts w + Z.of_nat (length requests)) w).
Proof.
  revert w. induction requests as [|request rest IH]; intros w Hlt.
  - cbn. rewrite Z.add_0_r. by destruct w.
  - cbn [run length] in *. rewrite login2_below by lia.
    rewrite IH by (cbn; lia). cbn. f_equal.
  unfold set_attempts; cbn. f_equal. lia.
Qed.

Lemma run_app {R} (view : R → World → HttpResponse * World)
      (l1 l2 : list R) (w : World) :
  run view (l1 ++ l2)%list w
  = (((run view l1 w).1 ++ (run view l2 (run view l1 w).2).1)%list,
     (run view l2 (run view l1 w).2).2).
Proof.
  revert w. induction l1 as [|r l1 IH]; intros w.
  - cbn. by destruct (run view l2 w).
  - cbn. destruct (view r w) as [resp w1]. rewrite IH.
    by destruct (run view l1 w1), (run view l2 _).
Qed.

Lemma block_account_idem (us : list CustomUser) (u : CustomUser) :
  block_account (set_is_blocked true u) (block_account u us) = block_account u us.
Proof.
  unfold block_account, save_user. rewrite <-list_fmap_compose.
  apply Forall_fmap_ext_1, Forall_forall. intros x _. unfold compose.
  change (pk (set_is_blocked true (set_is_blocked true u))) with (pk u).
  change (pk (set_is_blocked true u)) with (pk u).
  destruct (decide (pk x = pk u)) as [Hx|Hx].
  - rewrite (bool_decide_eq_true_2 _ Hx). by rewrite bool_decide_eq_true_2.
  - rewrite (bool_decide_eq_false_2 _ Hx). by rewrite bool_decide_eq_false_2.
Qed.

(** At the threshold and beyond, every attempt on the account is answered by
    the redirect to [registro], blocks the account (again) and is counted. *)
Lemma run_login2_reached (requests : list HttpRequest) (w : World) (u : CustomUser) :
  requests ≠ [] →
  N ≤ attempts w + 1 →
  users_ok (users w) →
  u ∈ users w →
  Forall (attempt_on u) requests →
  run login2 requests w
  = (replicate (length requests) (redirect (Reverse "registro" [])),
     set_users (block_account u (users w))
               (set_attempts (attempts w + Z.of_nat (length requests)) w)).
Proof.
  revert w u. induction requests as [|request rest IH]; intros w u Hne Hle Hok Hin Hall; [done|].
  apply Forall_cons in Hall as [Hreq Hall]. cbn [run length].
  rewrite (login2_reached request w u Hle)
    by (unfold attempt_on in Hreq; rewrite Hreq; by apply get_by_username_elem).
  destruct (block_account_ok _ _ Hok Hin) as [Hok' Hin'].
  destruct rest as [|request' rest'].
  - cbn. do 2 f_equal.
  - rewrite (IH _ (set_is_blocked true u)); [| done | cbn; lia | done | done | done].
    cbn [users set_users attempts set_attempts tokens session replicate length].
    rewrite block_account_idem. f_equal.
    unfold set_users, set_attempts. cbn [users tokens attempts session]. f_equal. lia.
Qed.

(** C1, as the code has it: the threshold's worth of failed attempts on a
    stored account leave the account blocked. With the counter at [c]
    before (it starts at zero and is never negative), the first [N - 1 - c]
    attempts are answered by the login form and the others by the redirect
    to [registro]; from zero, the account is therefore blocked by the last
    attempt and no earlier. The counter is not reset: it has grown by the
    threshold. The account's next attempt, whatever its credentials, is
    answered by the same redirect and leaves the account blocked. *)
Theorem lockout_after_max_failures (w : World) (u : CustomUser)
        (requests : list HttpRequest) (next : HttpRequest) :
  users_ok (users w) →
  u ∈ users w →
  0 ≤ attempts w →
  1 ≤ N →
  Z.of_nat (length requests) = N →
  Forall (failed_attempt_on u) requests →
  attempt_on u next →
  let w' := (run login2 requests w).2 in
  let below := Z.to_nat (N - 1 - attempts w) in
  (run login2 requests w).1
  = (replicate below (render "registration/login.html")
     ++ replicate (length requests - below) (redirect (Reverse "registro" [])))%list
  ∧ get_by_username (Some (username u)) (users w') = inr (set_is_blocked true u)
  ∧ attempts w' = attempts w + N
  ∧ (login2 next w').1 = redirect (Reverse "registro" [])
  ∧ get_by_username (Some (username u)) (users (login2 next w').2)
    = inr (set_is_blocked true u).
Proof.
  intros Hok Hin Hnonneg Hpos Hlen Hall Hnext w' below.
  assert (Hall' : Forall (attempt_on u) requests)
    by (eapply Forall_impl; [exact Hall | by intros ? [_ ?]]).
  assert (Hrun : run login2 requests w
                 = ((replicate below (render "registration/login.html")
                     ++ replicate (length requests - below)
                          (redirect (Reverse "registro" [])))%list,
                    set_users (block_account u (users w))
                              (set_attempts (attempts w + N) w))).
  { destruct (decide (N ≤ attempts w + 1)) as [Hreached|Hbelow].
    - replace below with 0%nat by (unfold below; lia).
      rewrite run_login2_reached with (u := u); [| |done..].
      + rewrite Nat.sub_0_r, Hlen. done.
      + intros ->. cbn in Hlen. lia.
    - assert (Hk : (below < length requests)%nat) by (unfold below; lia).
      rewrite <-(take_drop below requests) at 1.
      rewrite run_app, run_login2_below
        by (rewrite length_take; unfold below; lia).
      cbn [fst snd].
      rewrite run_login2_reached with (u := u).
      + rewrite length_take, length_drop.
        replace (below `min` length requests)%nat with below by lia.
        cbn [fst snd users set_users attempts set_attempts]. f_equal.
        unfold set_users, set_attempts. cbn [users tokens attempts session].
        f_equal. unfold below. lia.
      + intros Hnil. apply (f_equal length) in Hnil.
        rewrite length_drop in Hnil. cbn in Hnil. lia.
      + cbn [attempts set_attempts]. rewrite length_take. unfold below. lia.
      + done.
      + done.
      + by apply Forall_drop. }
  destruct (block_account_ok _ _ Hok Hin) as [Hok' Hin'].
  unfold w'. rewrite Hrun. cbn [fst snd users set_users attempts set_attempts].
  split; [done|]. split; [by apply block_account_get|]. split; [done|].
  rewrite (login2_reached _ _ (set_is_blocked true u)).
  - split; [done|]. cbn [snd users set_users].
    by apply (block_account_get _ (set_is_blocked true u)).
  - cbn. lia.
  - cbn. unfold attempt_on in Hnext. rewrite Hnext. by apply block_account_get.
Qed.

End Lockout.

Lemma lockout_after_max_failures_witness :
  let w' := (run (login2 (settings := test_settings)) (replicate 3 wrong_password) setUp).2 in
  (run (login2 (settings := test_settings)) (replicate 3 wrong_password) setUp).1
  = [render "registration/login.html"; render "registration/login.html";
     redirect (Reverse "registro" [])]
  ∧ get_by_username (Some "voter1") (users w') = inr (set_is_blocked true voter1)
  ∧ user_failed_login_attempts w' = 0 + 3
  ∧ (login2 (settings := test_settings) right_password w').1
    = redirect (Reverse "registro" [])
  ∧ get_by_username (Some "voter1")
      (users (login2 (settings := test_settings) right_password w').2)
    = inr (set_is_blocked true voter1).
Proof.
  apply (lockout_after_max_failures (settings := test_settings) setUp voter1
           (replicate 3 wrong_password) right_password).
  - apply (bool_decide_unpack _). vm_compute. exact I.
  - unfold setUp; simpl. set_solver.
  - vm_compute. discriminate.
  - vm_compute. discriminate.
  - reflexivity.
  - repeat constructor.
  - reflexivity.
Defined.

(** C1, as the design document has it, fails on the counter: after three
    failed attempts with a threshold of three the account is blocked but the
    counter stands at three, not at zero. *)
Lemma lockout_counter_not_reset :
  let w' := (run (login2 (settings := test_settings)) (replicate 3 wrong_password) setUp).2 in
  get_by_username (Some "voter1") (users w') = inr (set_is_blocked true voter1)
  ∧ user_failed_login_attempts w' = 3
  ∧ user_failed_login_attempts w' ≠ 0.
Proof. vm_compute. repeat split; discriminate. Qed.

(** C2 on the code, with a threshold of three: two failures, one successful
    login and two more failures. The successful login is counted as the
    third failure: it is answered by the redirect to [registro] and blocks
    the account, which stays blocked. *)
Theorem success_is_counted_as_failure :
  let attempts := [wrong_password; wrong_password; right_password;
                   wrong_password; wrong_password] in
  let w' := (run (login2 (settings := test_settings)) (take 3 attempts) setUp).2 in
  let w'' := (run (login2 (settings := test_settings)) attempts setUp).2 in
  (run (login2 (settings := test_settings)) attempts setUp).1
  = [render "registration/login.html"; render "registration/login.html";
     redirect (Reverse "registro" []); redirect (Reverse "registro" []);
     redirect (Reverse "registro" [])]
  ∧ user_failed_login_attempts w' = 3
  ∧ get_by_username (Some "voter1") (users w') = inr (set_is_blocked true voter1)
  ∧ user_failed_login_attempts w'' = 5
  ∧ get_by_username (Some "voter1") (users w'') = inr (set_is_blocked true voter1).
Proof. vm_compute. repeat split. Qed.

(** ** The second factor *)

(** The engine reproduces the test vectors of RFC 4226 (counters 0 to 9)
    and of RFC 6238 (SHA-1, truncated to six digits). *)
Example hotp_rfc4226_vectors :
  (Pyotp.generate_otp (secret voter2fa)) <$> [0; 1; 2; 3; 4; 5; 6; 7; 8; 9]
  = inr <$> ["755224"; "287082"; "359152"; "969429"; "338314";
             "254676"; "287922"; "162583"; "399871"; "520489"].
Proof. vm_compute. reflexivity. Qed.

Example totp_rfc6238_vectors :
  (Pyotp.totp_now (secret voter2fa)) <$> [59; 1111111109; 1234567890; 20000000000]
  = inr <$> ["287082"; "081804"; "005924"; "353130"].
Proof. vm_compute. reflexivity. Qed.

Lemma is_ascii_app (s t : string) : is_ascii (s +:+ t) = is_ascii s && is_ascii t.
Proof. induction s as [|c s IH]; [done|]. simpl. by rewrite IH, andb_assoc. Qed.

Lemma digits_ascii (n : nat) (x : Z) : is_ascii (Pyotp.digits n x) = true.
Proof.
  revert x. induction n as [|n IH]; intros x; [done|].
  cbn [Pyotp.digits]. rewrite is_ascii_app, IH. cbn [is_ascii andb].
  rewrite andb_true_r. apply N.ltb_lt.
  assert (0 ≤ x mod 10 < 10) by (apply Z.mod_pos_bound; lia).
  rewrite Ascii.N_ascii_embedding; lia.
Qed.

(** The codes of the engine are ASCII text. *)
Lemma generate_otp_ascii (s : option string) (i : Z) (code : string) :
  Pyotp.generate_otp s i = inr code → is_ascii code = true.
Proof.
  unfold Pyotp.generate_otp. destruct (i <? 0); [done|].
  destruct (Pyotp.byte_secret s); [done|].
  intros Hcode.
  apply (f_equal (λ r, match r with inr c => is_ascii c | inl _ => true end)) in Hcode.
  cbv beta iota in Hcode. by rewrite digits_ascii in Hcode.
Qed.

Section SecondFactor.
Context {unicode : Unicode}.

Lemma NFKC_ascii (s : string) : is_ascii s = true → NFKC s = s.
Proof. unfold NFKC. by intros ->. Qed.

Lemma verify_spec (s otp : option string) (now : Z) (current : string) :
  Pyotp.totp_now s now = inr current →
  Pyotp.verify s otp now = inr (bool_decide (NFKC (Pyotp.py_str otp) = current)).
Proof.
  intros Hnow. pose proof (generate_otp_ascii _ _ _ Hnow) as Hascii.
  unfold Pyotp.verify, Pyotp.at_time, Pyotp.strings_equal.
  unfold Pyotp.totp_now in Hnow. rewrite Z.add_0_r, Hnow.
  by rewrite (NFKC_ascii current Hascii).
Qed.

(** C6, as the code has it: a submitted code is accepted exactly when it is
    the code of the current 30-second step -- compared, as the engine does,
    in NFKC normal form, which leaves the digits of a code as they are;
    there is no tolerance for the steps next to it. So the code generated
    for the current time is accepted, and a code generated for any other
    time is rejected unless it happens to be the current code as well. On
    acceptance the user is logged in; on rejection the form is shown again
    and nothing changes. *)
Theorem two_factor_accepts_current_step_only (request : HttpRequest) (user_id now : Z)
        (w : World) (u : CustomUser) (code current : string) :
  method request = "POST" →
  get_by_pk user_id (users w) = inr u →
  POST request !! "codigo" = Some code →
  Pyotp.totp_now (secret u) now = inr current →
  Pyotp.verify (secret u) (Some code) now = inr (bool_decide (NFKC code = current))
  ∧ comprobarqr request user_id now w
    = if bool_decide (NFKC code = current)
      then (render "home.html", auth_login u w)
      else (render "2fa.html", w).
Proof.
  intros Hpost Hu Hcode Hnow.
  pose proof (verify_spec (secret u) (Some code) now current Hnow) as Hv.
  change (Pyotp.py_str (Some code)) with code in Hv. split; [done|].
  unfold comprobarqr. rewrite bool_decide_eq_true_2 by done.
  rewrite Hu, Hnow, Hcode, Hv. by case_bool_decide.
Qed.

Lemma verify_fails_with_now (s otp : option string) (now : Z) (e : Exn) :
  Pyotp.totp_now s now = inl e → Pyotp.verify s otp now = inl e.
Proof.
  unfold Pyotp.verify, Pyotp.at_time, Pyotp.totp_now.
  rewrite Z.add_0_r. by intros ->.
Qed.

(** What one submission to [comprobarqr] does to the world: it logs the
    user in when the code is the one of the moment, and nothing otherwise. *)
Lemma comprobarqr_world (user_id : Z) (try : HttpRequest * Z) (w : World) (u : CustomUser) :
  get_by_pk user_id (users w) = inr u →
  (comprobarqr_at user_id try w).2
  = if valid_try (secret u) try then auth_login u w else w.
Proof.
  intros Hu. destruct try as [request now].
  unfold comprobarqr_at, comprobarqr, valid_try. cbn [fst snd].
  case_bool_decide; [|done]. cbn [andb]. rewrite Hu.
  destruct (Pyotp.totp_now (secret u) now) as [e|current] eqn:Hnow.
  - by rewrite (verify_fails_with_now _ _ _ _ Hnow).
  - by destruct (Pyotp.verify _ _ _) as [?|[]].
Qed.

Lemma run_comprobarqr (user_id : Z) (tries : list (HttpRequest * Z)) (w : World)
      (u : CustomUser) :
  get_by_pk user_id (users w) = inr u →
  (run (comprobarqr_at user_id) tries w).2
  = if existsb (valid_try (secret u)) tries then auth_login u w else w.
Proof.
  revert w. induction tries as [|try rest IH]; intros w Hu; [done|].
  cbn [run existsb].
  pose proof (comprobarqr_world user_id try w u Hu) as Hstep.
  destruct (comprobarqr_at user_id try w) as [response w1]. cbn [snd] in Hstep.
  specialize (IH w1).
  destruct (run (comprobarqr_at user_id) rest w1) as [responses w2]. cbn [snd] in *.
  subst w1. destruct (valid_try (secret u) try); cbn [orb].
  - rewrite IH by done. by destruct (existsb _ rest).
  - by apply IH.
Qed.

Context {form : AuthenticationForm}.

(** C3: when the login form accepts the submitted credentials (the
    password among them) for a stored user who has a secret, the answer is
    the redirect to [comprobarqr] with the user's id, the session is not
    authenticated and the token table is as before; and after any
    submissions to [comprobarqr] for that id the session is authenticated,
    as that user, exactly when one of them carried the code valid at its
    moment -- the token table still as before. *)
Theorem second_factor_required (request : HttpRequest) (w : World) (u : CustomUser)
        (tries : list (HttpRequest * Z)) :
  users_ok (users w) →
  u ∈ users w →
  form_get_user (POST request) (users w) = Some u →
  truthy_opt (secret u) = true →
  let w' := (Custom_loginView_post request w).2 in
  let w'' := (run (comprobarqr_at (pk u)) tries w').2 in
  (Custom_loginView_post request w).1
  = redirect (Reverse "comprobarqr" [("user_id", pk u)])
  ∧ session w' = None
  ∧ tokens w' = tokens w
  ∧ session w'' = (if existsb (valid_try (secret u)) tries then Some (pk u) else None)
  ∧ tokens w'' = tokens w.
Proof.
  intros Hok Hin Hform Hsecret w' w''.
  assert (Hlogin : Custom_loginView_post request w
                   = (redirect (Reverse "comprobarqr" [("user_id", pk u)]),
                      auth_logout (auth_login u w))).
  { unfold Custom_loginView_post. rewrite Hform.
    unfold form_valid, get_success_url. cbn [user]. by rewrite Hsecret. }
  unfold w'', w'. rewrite Hlogin. cbn [fst snd].
  rewrite (run_comprobarqr _ _ _ u) by (by apply get_by_pk_elem).
  repeat split; by destruct (existsb _ tries).
Qed.

End SecondFactor.

Lemma two_factor_accepts_current_step_only_witness :
  Pyotp.totp_now (secret voter2fa) 59 = inr "287082"
  ∧ ∀ unicode : Unicode,
      Pyotp.verify (secret voter2fa) (Some "287082") 59
      = inr (bool_decide (NFKC "287082" = "287082"))
      ∧ comprobarqr (form_request [("codigo", "287082")]) 4 59 enrolled
        = if bool_decide (NFKC "287082" = "287082")
          then (render "home.html", auth_login voter2fa enrolled)
          else (render "2fa.html", enrolled).
Proof.
  split; [vm_compute; reflexivity|]. intros unicode.
  apply (two_factor_accepts_current_step_only
           (form_request [("codigo", "287082")]) 4 59 enrolled voter2fa "287082" "287082");
    vm_compute; reflexivity.
Defined.

(** C6, as the design document has it, fails on the tolerance: the code
    generated at second 59 is submitted one second later, when the next step
    has begun; the steps are adjacent, and the code is rejected, whatever the
    normal forms of text that is not ASCII are. *)
Lemma adjacent_step_rejected :
  Pyotp.totp_now (secret voter2fa) 59 = inr "287082"
  ∧ Pyotp.timecode 60 - Pyotp.timecode 59 = 1
  ∧ ∀ unicode : Unicode,
      Pyotp.verify (secret voter2fa) (Some "287082") 60 = inr false
      ∧ comprobarqr (form_request [("codigo", "287082")]) 4 60 enrolled
        = (render "2fa.html", enrolled).
Proof.
  split; [vm_compute; reflexivity|]. split; [reflexivity|].
  intros unicode. vm_compute. by split.
Qed.

(** Six digits cannot tell all steps apart: with the secret of the test
    vectors the steps 336 and 2205 have the same code, so a code generated
    1869 steps away is accepted. *)
Example distant_steps_can_share_a_code (unicode : Unicode) :
  Pyotp.totp_now (secret voter2fa) (2205 * 30) = inr "143951"
  ∧ Pyotp.verify (secret voter2fa) (Some "143951") (336 * 30) = inr true.
Proof. vm_compute. repeat split. Qed.

(** The engine normalises what is submitted: a text that is not the code
    but has the code as its normal form is accepted too. *)
Example normal_form_of_the_code_accepted (unicode : Unicode) (text : string) :
  NFKC text = "287082" →
  comprobarqr (form_request [("codigo", text)]) 4 59 enrolled
  = (render "home.html", auth_login voter2fa enrolled).
Proof.
  intros Hnormal.
  pose proof (two_factor_accepts_current_step_only
                (form_request [("codigo", text)]) 4 59 enrolled voter2fa text "287082")
    as Haccept.
  destruct Haccept as [_ ->].
  - reflexivity.
  - vm_compute. reflexivity.
  - unfold form_request. cbn [POST]. apply lookup_insert_eq.
  - vm_compute. reflexivity.
  - by rewrite bool_decide_eq_true_2.
Qed.

Lemma second_factor_required_witness :
  truthy_opt (secret voter2fa) = true
  ∧ ∀ unicode : Unicode,
      let w' := (Custom_loginView_post (form := test_form) login_voter2fa enrolled).2 in
      let w'' := (run (comprobarqr_at 4) three_tries w').2 in
      (Custom_loginView_post (form := test_form) login_voter2fa enrolled).1
      = redirect (Reverse "comprobarqr" [("user_id", 4)])
      ∧ session w' = None
      ∧ tokens w' = tokens enrolled
      ∧ session w''
        = (if existsb (valid_try (secret voter2fa)) three_tries then Some 4 else None)
      ∧ tokens w'' = tokens enrolled.
Proof.
  split; [reflexivity|]. intros unicode.
  apply (second_factor_required (form := test_form)
           login_voter2fa enrolled voter2fa three_tries); try reflexivity.
  - apply (bool_decide_unpack _). vm_compute. exact I.
  - unfold enrolled; simpl. set_solver.
Defined.

(** The run of the three submissions: only the last one authenticates. *)
Example three_tries_run (unicode : Unicode) :
  let w' := (Custom_loginView_post (form := test_form) login_voter2fa enrolled).2 in
  (run (comprobarqr_at 4) (take 2 three_tries) w').1 = [render "2fa.html"; render "2fa.html"]
  ∧ session (run (comprobarqr_at 4) (take 2 three_tries) w').2 = None
  ∧ (run (comprobarqr_at 4) three_tries w').1
    = [render "2fa.html"; render "2fa.html"; render "home.html"]
  ∧ session (run (comprobarqr_at 4) three_tries w').2 = Some 4.
Proof. vm_compute. repeat split. Qed.

(** * Further properties of the views *)

(** ** More on the lockout counter *)

Lemma get_by_username_found (name : option string) (us : list CustomUser) (u : CustomUser) :
  get_by_username name us = inr u → u ∈ us ∧ name = Some (username u).
Proof.
  destruct name as [n|]; [|done]. cbn.
  destruct (filter _ us) as [|x [|y rest]] eqn:Hf; [done| |done].
  intros [= ->].
  assert (Hin : u ∈ filter (λ v, username v = n) us) by (rewrite Hf; by left).
  apply list_elem_of_filter in Hin as [<- Hin]. done.
Qed.

Lemma get_by_username_unknown (name : option string) (us : list CustomUser) :
  (∀ u, u ∈ us → name ≠ Some (username u)) →
  get_by_username name us = inl DoesNotExist.
Proof.
  intros Hnone. destruct name as [n|]; [|done]. cbn.
  rewrite filter_no_key; [done|].
  intros Hin. apply list_elem_of_fmap in Hin as (u & -> & Hin). by apply (Hnone u).
Qed.

(** Blocking rewrites the row of the account and no other. *)
Lemma block_account_rows (us : list CustomUser) (u : CustomUser) :
  users_ok us → u ∈ us →
  block_account u us
  = (λ x, if bool_decide (x = u) then set_is_blocked true u else x) <$> us.
Proof.
  intros [Hpk _] Hin. unfold block_account, save_user.
  change (pk (set_is_blocked true u)) with (pk u).
  apply Forall_fmap_ext_1, Forall_forall. intros x Hx.
  destruct (decide (x = u)) as [->|Hne].
  - by rewrite !bool_decide_eq_true_2.
  - rewrite !bool_decide_eq_false_2; [done|done|].
    intros Heq. apply Hne. by apply (NoDup_fmap_elem_inj pk us).
Qed.

Lemma block_account_other (us : list CustomUser) (u v : CustomUser) :
  users_ok us → u ∈ us → v ∈ us → v ≠ u → v ∈ block_account u us.
Proof.
  intros Hok Hu Hv Hne. rewrite block_account_rows by done.
  apply list_elem_of_fmap. exists v. split; [|done].
  by rewrite bool_decide_eq_false_2.
Qed.

Section LockoutMore.
Context {settings : Settings}.

Local Abbreviation N := AUTH_MAX_FAILED_LOGIN_ATTEMPTS.
Local Abbreviation attempts := user_failed_login_attempts.

Lemma login2_frame (request : HttpRequest) (w : World) :
  attempts (login2 request w).2 = attempts w + 1
  ∧ session (login2 request w).2 = session w
  ∧ tokens (login2 request w).2 = tokens w.
Proof.
  unfold login2. rewrite login2_guard. unfold login2_failed.
  cbn [attempts set_attempts]. destruct (N <=? attempts w + 1); [|done].
  by destruct (get_by_username _ _).
Qed.

(** X1: [login2] counts every request it gets, whatever the requests are:
    after any sequence of them the counter has grown by their number, and
    neither the session nor the token table has changed. The counter never
    goes down and nobody is ever logged in. *)
Theorem login2_run_counts_every_request (requests : list HttpRequest) (w : World) :
  attempts (run login2 requests w).2 = attempts w + Z.of_nat (length requests)
  ∧ session (run login2 requests w).2 = session w
  ∧ tokens (run login2 requests w).2 = tokens w.
Proof.
  revert w. induction requests as [|request rest IH]; intros w.
  - cbn. split; [lia|done].
  - cbn [run length]. destruct (login2_frame request w) as (Ha & Hs & Ht).
    destruct (login2 request w) as [response w1]. cbn [snd] in *.
    destruct (IH w1) as (Ha' & Hs' & Ht').
    destruct (run login2 rest w1) as [responses w2]. cbn [snd] in *.
    rewrite Ha', Hs', Ht', Ha, Hs, Ht. split; [lia|done].
Qed.

(** X2: when the threshold is reached and the form names no stored account
    (or has no [username] field), [login2] ends in the uncaught
    [DoesNotExist] of the lookup: nobody is blocked, and the attempt has
    been counted all the same. *)
Theorem login2_threshold_unknown_account (request : HttpRequest) (w : World) :
  N ≤ attempts w + 1 →
  (∀ u, u ∈ users w → POST request !! "username" ≠ Some (username u)) →
  login2 request w = (Uncaught DoesNotExist, set_attempts (attempts w + 1) w).
Proof.
  intros Hle Hnone. unfold login2. rewrite login2_guard. unfold login2_failed.
  cbn [attempts set_attempts users].
  rewrite (proj2 (Z.leb_le _ _) Hle).
  by rewrite (get_by_username_unknown _ _ Hnone).
Qed.

(** X3: the counter is shared by all accounts. From zero, the failures on
    one account bring the counter to one below the threshold; the first
    attempt on another account is then answered by the redirect to
    [registro] and blocks that other account, while the row of the first
    account is as it was. *)
Theorem lockout_is_shared_between_accounts (w : World) (a b : CustomUser)
        (requests : list HttpRequest) (next : HttpRequest) :
  users_ok (users w) →
  a ∈ users w →
  b ∈ users w →
  a ≠ b →
  attempts w = 0 →
  Z.of_nat (length requests) + 1 = N →
  Forall (failed_attempt_on a) requests →
  attempt_on b next →
  let w' := (run login2 requests w).2 in
  users w' = users w
  ∧ (login2 next w').1 = redirect (Reverse "registro" [])
  ∧ get_by_username (Some (username b)) (users (login2 next w').2)
    = inr (set_is_blocked true b)
  ∧ get_by_username (Some (username a)) (users (login2 next w').2) = inr a.
Proof.
  intros Hok Ha Hb Hne Hzero Hlen _ Hnext w'.
  unfold w'. rewrite run_login2_below by lia. cbn [snd users set_attempts].
  split; [done|].
  rewrite (login2_reached _ _ b).
  - cbn [fst snd users set_users set_attempts].
    destruct (block_account_ok _ _ Hok Hb) as [Hok' Hb'].
    split; [done|]. split; [by apply block_account_get|].
    apply get_by_username_elem; [done|]. by apply block_account_other.
  - cbn. lia.
  - cbn. unfold attempt_on in Hnext. rewrite Hnext. by apply get_by_username_elem.
Qed.

(** X4: whatever the request, [login2] leaves a consistent user table
    consistent, and row by row the table after it is the table before it
    except that a row may have become blocked: no row is added, removed or
    unblocked, and no other field changes. *)
Theorem login2_only_blocks (request : HttpRequest) (w : World) :
  users_ok (users w) →
  users_ok (users (login2 request w).2)
  ∧ Forall2 same_or_blocked (users w) (users (login2 request w).2).
Proof.
  intros Hok.
  assert (Hsame : Forall2 same_or_blocked (users w) (users w)).
  { apply Forall_Forall2_diag, Forall_forall. intros x _. by left. }
  unfold login2. rewrite login2_guard. unfold login2_failed.
  cbn [attempts set_attempts users].
  destruct (N <=? attempts w + 1); [|done].
  destruct (get_by_username _ _) as [e|usuario] eqn:Hget; [done|].
  apply get_by_username_found in Hget as [Hin _].
  cbn [snd users set_users]. split; [by apply block_account_ok|].
  rewrite block_account_rows by done.
  apply Forall2_fmap_r, Forall_Forall2_diag, Forall_forall.
  intros x _. unfold compose. destruct (decide (x = usuario)) as [->|Hx].
  - rewrite bool_decide_eq_true_2 by done. by right.
  - rewrite bool_decide_eq_false_2 by done. by left.
Qed.

End LockoutMore.

Lemma login2_threshold_unknown_account_witness :
  login2 (settings := test_settings) (form_request [("username", "nobody")])
         (set_attempts 2 setUp)
  = (Uncaught DoesNotExist, set_attempts (2 + 1) (set_attempts 2 setUp)).
Proof.
  apply (login2_threshold_unknown_account (settings := test_settings)
           (form_request [("username", "nobody")]) (set_attempts 2 setUp)).
  - vm_compute. discriminate.
  - apply (proj1 (Forall_forall _ _)). apply (bool_decide_unpack _). vm_compute. exact I.
Defined.

Lemma lockout_is_shared_between_accounts_witness :
  let w' := (run (login2 (settings := test_settings)) (replicate 2 wrong_password) setUp).2 in
  users w' = users setUp
  ∧ (login2 (settings := test_settings) (form_request [("username", "admin")]) w').1
    = redirect (Reverse "registro" [])
  ∧ get_by_username (Some "admin")
      (users (login2 (settings := test_settings) (form_request [("username", "admin")]) w').2)
    = inr (set_is_blocked true admin)
  ∧ get_by_username (Some "voter1")
      (users (login2 (settings := test_settings) (form_request [("username", "admin")]) w').2)
    = inr voter1.
Proof.
  apply (lockout_is_shared_between_accounts (settings := test_settings) setUp voter1 admin
           (replicate 2 wrong_password) (form_request [("username", "admin")])).
  - apply (bool_decide_unpack _). vm_compute. exact I.
  - unfold setUp; simpl. set_solver.
  - unfold setUp; simpl. set_solver.
  - discriminate.
  - reflexivity.
  - reflexivity.
  - repeat constructor.
  - reflexivity.
Defined.

Lemma login2_only_blocks_witness :
  users_ok (users (login2 (settings := test_settings) wrong_password (set_attempts 2 setUp)).2)
  ∧ Forall2 same_or_blocked (users (set_attempts 2 setUp))
      (users (login2 (settings := test_settings) wrong_password (set_attempts 2 setUp)).2).
Proof.
  apply (login2_only_blocks (settings := test_settings) wrong_password (set_attempts 2 setUp)).
  apply (bool_decide_unpack _). vm_compute. exact I.
Defined.

(** ** More on the login form and the second factor *)

Section LoginFormMore.
Context {form : AuthenticationForm}.

(** X5: when the login form accepts the submitted credentials for a user
    without a usable secret (none, or the empty string), the user is logged
    in at once: the answer is the framework's default redirect, the session
    is that user's, and nothing else changes. *)
Theorem login_without_secret_opens_session (request : HttpRequest) (w : World)
        (u : CustomUser) :
  form_get_user (POST request) (users w) = Some u →
  truthy_opt (secret u) = false →
  Custom_loginView_post request w = (redirect default_redirect_url, set_session (Some (pk u)) w).
Proof.
  intros Hform Hsecret. unfold Custom_loginView_post. rewrite Hform.
  unfold form_valid, get_success_url. cbn [user]. by rewrite Hsecret.
Qed.

End LoginFormMore.

Lemma login_without_secret_opens_session_witness :
  Custom_loginView_post (form := test_form)
    (form_request [("username", "voter1"); ("password", "123")]) setUp
  = (redirect default_redirect_url, set_session (Some 1) setUp).
Proof.
  apply (login_without_secret_opens_session (form := test_form)
           (form_request [("username", "voter1"); ("password", "123")]) setUp voter1);
    reflexivity.
Defined.

Lemma get_by_pk_unknown (i : Z) (us : list CustomUser) :
  (∀ u, u ∈ us → pk u ≠ i) → get_by_pk i us = inl DoesNotExist.
Proof.
  intros Hnone. unfold get_by_pk. rewrite filter_no_key; [done|].
  intros Hin. apply list_elem_of_fmap in Hin as (u & -> & Hin). by apply (Hnone u).
Qed.

Lemma comprobarqr_frame {unicode : Unicode} (request : HttpRequest) (user_id now : Z) (w : World) :
  users (comprobarqr request user_id now w).2 = users w
  ∧ tokens (comprobarqr request user_id now w).2 = tokens w
  ∧ user_failed_login_attempts (comprobarqr request user_id now w).2
    = user_failed_login_attempts w.
Proof.
  unfold comprobarqr. case_bool_decide; [|done].
  destruct (get_by_pk _ _) as [e|u]; [done|].
  destruct (Pyotp.totp_now _ _); [done|].
  by destruct (Pyotp.verify _ _ _) as [?|[]].
Qed.

(** X6: submissions to [comprobarqr] are never counted and never block:
    after any sequence of them, for any user id and with any codes, the user
    table, the token table and the lockout counter are what they were. *)
Theorem comprobarqr_run_never_counts {unicode : Unicode} (user_id : Z) (tries : list (HttpRequest * Z))
        (w : World) :
  users (run (comprobarqr_at user_id) tries w).2 = users w
  ∧ tokens (run (comprobarqr_at user_id) tries w).2 = tokens w
  ∧ user_failed_login_attempts (run (comprobarqr_at user_id) tries w).2
    = user_failed_login_attempts w.
Proof.
  revert w. induction tries as [|[request now] rest IH]; intros w; [done|].
  cbn [run]. unfold comprobarqr_at at 1 3 5. cbn [fst snd].
  destruct (comprobarqr_frame request user_id now w) as (Hu & Ht & Ha).
  destruct (comprobarqr request user_id now w) as [response w1]. cbn [snd] in *.
  destruct (IH w1) as (Hu' & Ht' & Ha').
  destruct (run (comprobarqr_at user_id) rest w1) as [responses w2]. cbn [snd] in *.
  by rewrite Hu', Ht', Ha', Hu, Ht, Ha.
Qed.

(** X7: for a user id that no stored user has, [comprobarqr] changes
    nothing; a POST ends in the uncaught [DoesNotExist] of the lookup (not
    in a 404), any other method shows the form. *)
Theorem comprobarqr_unknown_user {unicode : Unicode} (request : HttpRequest) (user_id now : Z) (w : World) :
  (∀ u, u ∈ users w → pk u ≠ user_id) →
  comprobarqr request user_id now w
  = (if bool_decide (method request = "POST") then Uncaught DoesNotExist
     else render "2fa.html", w).
Proof.
  intros Hnone. unfold comprobarqr. case_bool_decide; [|done].
  by rewrite (get_by_pk_unknown _ _ Hnone).
Qed.

Lemma string_length_app (s t : string) :
  String.length (s +:+ t) = (String.length s + String.length t)%nat.
Proof. induction s as [|c s IH]; [done|]. simpl. by f_equal. Qed.

Lemma digits_length (n : nat) (x : Z) : String.length (Pyotp.digits n x) = n.
Proof.
  revert x. induction n as [|n IH]; intros x; [done|].
  cbn [Pyotp.digits]. rewrite string_length_app, IH. cbn. lia.
Qed.

Lemma generate_otp_length (s : option string) (i : Z) (code : string) :
  Pyotp.generate_otp s i = inr code → String.length code = 6%nat.
Proof.
  unfold Pyotp.generate_otp. destruct (i <? 0); [done|].
  destruct (Pyotp.byte_secret s); [done|].
  intros Hcode.
  apply (f_equal (λ r, match r with inr c => String.length c | inl _ => 6%nat end)) in Hcode.
  cbv beta iota in Hcode. by rewrite digits_length in Hcode.
Qed.

(** X8: a submission to [comprobarqr] without the field [codigo] is never
    accepted: the code compared is the text [None], which no six-digit code
    equals. The world stays as it was and the home page is not shown. *)
Theorem comprobarqr_missing_code_rejected {unicode : Unicode} (request : HttpRequest) (user_id now : Z)
        (w : World) :
  POST request !! "codigo" = None →
  (comprobarqr request user_id now w).2 = w
  ∧ (comprobarqr request user_id now w).1 ≠ render "home.html".
Proof.
  intros Hmissing. unfold comprobarqr. case_bool_decide; [|done].
  destruct (get_by_pk _ _) as [e|u]; [done|].
  destruct (Pyotp.totp_now _ _) as [e|current] eqn:Hnow; [done|].
  rewrite Hmissing, (verify_spec _ _ _ _ Hnow).
  apply generate_otp_length in Hnow.
  rewrite bool_decide_eq_false_2; [done|].
  intros <-. vm_compute in Hnow. lia.
Qed.

(** X9: for a stored user who has no secret, a POST to [comprobarqr] ends in
    an uncaught exception of the engine, whatever the code: the [TypeError]
    of decoding a missing secret (or, for a clock before the epoch, the
    [ValueError] of a negative counter). Such a user is never logged in by
    this view and the world stays as it was. *)
Theorem comprobarqr_without_secret {unicode : Unicode} (request : HttpRequest) (user_id now : Z)
        (w : World) (u : CustomUser) :
  method request = "POST" →
  get_by_pk user_id (users w) = inr u →
  secret u = None →
  comprobarqr request user_id now w
  = (Uncaught (if Pyotp.timecode now <? 0 then ValueError else TypeError), w).
Proof.
  intros Hpost Hu Hsecret. unfold comprobarqr.
  rewrite bool_decide_eq_true_2 by done. rewrite Hu, Hsecret.
  unfold Pyotp.totp_now, Pyotp.generate_otp. cbn [Pyotp.byte_secret].
  by destruct (Pyotp.timecode now <? 0).
Qed.

Lemma comprobarqr_unknown_user_witness :
  get_by_pk 99 (users enrolled) = inl DoesNotExist
  ∧ ∀ unicode : Unicode,
      comprobarqr (form_request [("codigo", "287082")]) 99 59 enrolled
      = (if bool_decide (method (form_request [("codigo", "287082")]) = "POST")
         then Uncaught DoesNotExist else render "2fa.html", enrolled).
Proof.
  split; [reflexivity|]. intros unicode.
  apply (comprobarqr_unknown_user (form_request [("codigo", "287082")]) 99 59 enrolled).
  apply (proj1 (Forall_forall _ _)). apply (bool_decide_unpack _). vm_compute. exact I.
Defined.

Lemma comprobarqr_missing_code_rejected_witness :
  POST (form_request []) !! "codigo" = None
  ∧ ∀ unicode : Unicode,
      (comprobarqr (form_request []) 4 59 enrolled).2 = enrolled
      ∧ (comprobarqr (form_request []) 4 59 enrolled).1 ≠ render "home.html".
Proof.
  split; [reflexivity|]. intros unicode.
  apply (comprobarqr_missing_code_rejected (form_request []) 4 59 enrolled).
  reflexivity.
Defined.

Lemma comprobarqr_without_secret_witness :
  secret voter1 = None
  ∧ ∀ unicode : Unicode,
      comprobarqr (form_request [("codigo", "287082")]) 1 59 enrolled
      = (Uncaught (if Pyotp.timecode 59 <? 0 then ValueError else TypeError), enrolled).
Proof.
  split; [reflexivity|]. intros unicode.
  apply (comprobarqr_without_secret (form_request [("codigo", "287082")]) 1 59 enrolled voter1);
    reflexivity.
Defined.

Lemma timecode_step (q r : Z) :
  0 ≤ q → 0 ≤ r < 30 → Pyotp.timecode (30 * q + r) = q.
Proof.
  intros Hq Hr. unfold Pyotp.timecode, Pyotp.interval.
  rewrite Z.quot_div_nonneg by lia. symmetry.
  apply (Z.div_unique_pos _ _ q r); lia.
Qed.

(** X10: within one 30-second step the second does not matter: at any two
    clock readings of the same step (after the epoch) [comprobarqr] gives
    the same answer to the same request and leaves the same world: a code
    that is accepted is accepted during every second of its step. *)
Theorem comprobarqr_same_step_same_answer {unicode : Unicode} (request : HttpRequest) (user_id : Z)
        (w : World) (q r1 r2 : Z) :
  0 ≤ q →
  0 ≤ r1 < 30 →
  0 ≤ r2 < 30 →
  comprobarqr request user_id (30 * q + r1) w
  = comprobarqr request user_id (30 * q + r2) w.
Proof.
  intros Hq Hr1 Hr2.
  unfold comprobarqr, Pyotp.verify, Pyotp.at_time, Pyotp.totp_now.
  by rewrite !timecode_step.
Qed.

Lemma comprobarqr_same_step_same_answer_witness :
  Pyotp.timecode (30 * 1 + 0) = Pyotp.timecode (30 * 1 + 29)
  ∧ ∀ unicode : Unicode,
      comprobarqr (form_request [("codigo", "287082")]) 4 (30 * 1 + 0) enrolled
      = comprobarqr (form_request [("codigo", "287082")]) 4 (30 * 1 + 29) enrolled.
Proof.
  split; [reflexivity|]. intros unicode.
  apply (comprobarqr_same_step_same_answer
           (form_request [("codigo", "287082")]) 4 enrolled 1 0 29); lia.
Defined.

Lemma comprobarqr_response_users {unicode : Unicode} (request : HttpRequest) (user_id now : Z) (w1 w2 : World) :
  users w1 = users w2 →
  (comprobarqr request user_id now w1).1 = (comprobarqr request user_id now w2).1.
Proof.
  intros Heq. unfold comprobarqr. rewrite Heq. case_bool_decide; [|done].
  destruct (get_by_pk _ _) as [e|u]; [done|].
  destruct (Pyotp.totp_now _ _); [done|].
  by destruct (Pyotp.verify _ _ _) as [?|[]].
Qed.

(** X11: [comprobarqr] keeps no memory of submissions: in any sequence of
    them, each is answered as it would be if it came first. A code that was
    accepted is accepted again within its step, and wrong codes, however
    many, do not change the answer to the right one. *)
Theorem comprobarqr_answers_ignore_history {unicode : Unicode} (user_id : Z) (tries : list (HttpRequest * Z))
        (w : World) :
  (run (comprobarqr_at user_id) tries w).1
  = (λ try, (comprobarqr_at user_id try w).1) <$> tries.
Proof.
  assert (Hgen : ∀ w1, users w1 = users w →
            (run (comprobarqr_at user_id) tries w1).1
            = (λ try, (comprobarqr_at user_id try w).1) <$> tries); [|by apply Hgen].
  induction tries as [|[request now] rest IH]; intros w1 Heq; [done|].
  cbn [run fmap list_fmap]. unfold comprobarqr_at at 1 3. cbn [fst snd].
  pose proof (comprobarqr_response_users request user_id now w1 w Heq) as Hresp.
  destruct (comprobarqr_frame request user_id now w1) as (Hu & _).
  destruct (comprobarqr request user_id now w1) as [response w2]. cbn [fst snd] in *.
  specialize (IH w2). rewrite Hu in IH. specialize (IH Heq).
  destruct (run (comprobarqr_at user_id) rest w2) as [responses w3]. cbn [fst] in *.
  by rewrite Hresp, IH.
Qed.

(** ** More on tokens *)

(** X12: [getUser] only reads: the world after it is the world before it,
    and its answer is 404 exactly when the token of the request (the empty
    key if the request has none) is not in the token table. *)
Theorem getuser_reads_only (request : HttpRequest) (w : World) :
  (GetUserView_post request w).2 = w
  ∧ ((GetUserView_post request w).1 = NotFound404
     ↔ tokens w !! dict_get (data request) "token" = None).
Proof.
  unfold GetUserView_post, token_get.
  destruct (tokens w !! dict_get (data request) "token") as [uid|]; [|done].
  by destruct (get_by_pk uid (users w)).
Qed.

(** X13: [logout] revokes the token it is given and no other: for a request
    with a different token, [getUser] answers after the logout what it
    answered before. *)
Theorem logout_keeps_other_tokens (request other : HttpRequest) (w : World) :
  dict_get (data other) "token" ≠ dict_get (data request) "token" →
  (GetUserView_post other (LogoutView_post request w).2).1
  = (GetUserView_post other w).1.
Proof.
  intros Hne. unfold LogoutView_post, GetUserView_post, token_get. cbn [snd].
  destruct (tokens w !! dict_get (data request) "token"); [|done].
  cbn [tokens users set_tokens]. rewrite lookup_delete_ne by congruence.
  destruct (tokens w !! dict_get (data other) "token") as [uid|]; [|done].
  by destruct (get_by_pk uid (users w)).
Qed.

Lemma logout_keeps_other_tokens_witness :
  (GetUserView_post (api_request [("token", "token-of-admin")])
     (LogoutView_post (api_request [("token", "token-of-voter1")]) logged_in).2).1
  = (GetUserView_post (api_request [("token", "token-of-admin")]) logged_in).1.
Proof.
  apply (logout_keeps_other_tokens (api_request [("token", "token-of-voter1")])
           (api_request [("token", "token-of-admin")]) logged_in).
  vm_compute. discriminate.
Defined.

Section RegistrationMore.
Context {hashers : Hashers}.

(** X14: a request to [register] whose token is a superuser's but whose
    user name or password is empty or absent is answered 400, and nothing
    is stored. *)
Theorem register_empty_field_bad_request (fresh : string) (request : HttpRequest)
        (w : World) (uid : Z) (su : CustomUser) :
  tokens w !! dict_get (data request) "token" = Some uid →
  get_by_pk uid (users w) = inr su →
  is_superuser su = true →
  data request !! "username" = None ∨ data request !! "username" = Some ""
  ∨ data request !! "password" = None ∨ data request !! "password" = Some "" →
  RegisterView_post fresh request w = (Response [] HTTP_400_BAD_REQUEST, w).
Proof.
  intros Htk Hsu Hsuper Hempty. unfold RegisterView_post, token_get.
  rewrite Htk, Hsu, Hsuper. cbn [negb]. unfold dict_get.
  destruct Hempty as [-> | [-> | [-> | ->]]]; cbn; try done.
  all: by rewrite orb_true_r.
Qed.

(** X15: a logout followed by a registration with the same token: the
    token is gone, so the registration is answered 404 whoever owned the
    token, and stores nothing. *)
Theorem register_after_logout_not_found (fresh : string) (request logout_request : HttpRequest)
        (w : World) :
  dict_get (data request) "token" = dict_get (data logout_request) "token" →
  RegisterView_post fresh request (LogoutView_post logout_request w).2
  = (NotFound404, (LogoutView_post logout_request w).2).
Proof.
  intros Heq. unfold RegisterView_post, token_get. rewrite Heq.
  unfold LogoutView_post, token_get. cbn [snd].
  destruct (tokens w !! dict_get (data logout_request) "token") eqn:Hk.
  - cbn [tokens set_tokens]. by rewrite lookup_delete_eq.
  - by rewrite Hk.
Qed.

End RegistrationMore.

Lemma register_empty_field_bad_request_witness :
  RegisterView_post (hashers := test_hashers) "fresh"
    (api_request [("token", "token-of-admin"); ("username", "user1")]) logged_in
  = (Response [] HTTP_400_BAD_REQUEST, logged_in).
Proof.
  apply (register_empty_field_bad_request (hashers := test_hashers) "fresh"
           (api_request [("token", "token-of-admin"); ("username", "user1")])
           logged_in 2 admin); try reflexivity.
  right. right. left. reflexivity.
Defined.

Lemma register_after_logout_not_found_witness :
  RegisterView_post (hashers := test_hashers) "fresh"
    (api_request [("token", "token-of-admin"); ("username", "user1"); ("password", "pwd1")])
    (LogoutView_post (api_request [("token", "token-of-admin")]) logged_in).2
  = (NotFound404, (LogoutView_post (api_request [("token", "token-of-admin")]) logged_in).2).
Proof.
  apply (register_after_logout_not_found (hashers := test_hashers)). reflexivity.
Defined.

(** ** A successful registration *)

Lemma next_pk_above (us : list CustomUser) (u : CustomUser) :
  u ∈ us → pk u < next_pk us.
Proof.
  unfold next_pk. induction us as [|a us IH]; intros Hin.
  - by apply elem_of_nil in Hin.
  - cbn [fmap list_fmap foldr].
    apply elem_of_cons in Hin as [->|Hin]; [lia|]. specialize (IH Hin). lia.
Qed.

Lemma insert_user_new (name encoded : string) (us : list CustomUser) :
  (∀ u, u ∈ us → username u ≠ name) →
  insert_user name encoded us
  = inr (mkUser (next_pk us) name encoded "" false false None,
         (us ++ [mkUser (next_pk us) name encoded "" false false None])%list).
Proof.
  intros Hfree. unfold insert_user. rewrite bool_decide_eq_false_2; [done|].
  intros Hex. apply Exists_exists in Hex as (u & Hin & Hname). by apply (Hfree u).
Qed.

Lemma users_ok_snoc (us : list CustomUser) (u : CustomUser) :
  users_ok us →
  (∀ v, v ∈ us → pk v ≠ pk u) →
  (∀ v, v ∈ us → username v ≠ username u) →
  users_ok (us ++ [u])%list.
Proof.
  intros [Hpk Hname] Hkey Hfree. split; rewrite fmap_app; apply NoDup_app.
  - split; [done|]. split; [|apply NoDup_singleton].
    intros i Hi Hi'. apply list_elem_of_fmap in Hi as (v & -> & Hv).
    apply list_elem_of_singleton in Hi'. by apply (Hkey v).
  - split; [done|]. split; [|apply NoDup_singleton].
    intros n Hn Hn'. apply list_elem_of_fmap in Hn as (v & -> & Hv).
    apply list_elem_of_singleton in Hn'. by apply (Hfree v).
Qed.

Lemma token_get_or_create_new (uid : Z) (fresh : string) (ts : gmap string Z) :
  (∀ k, ts !! k ≠ Some uid) →
  ts !! fresh = None →
  token_get_or_create uid fresh ts = inr (fresh, <[fresh := uid]> ts).
Proof.
  intros Hnone Hfresh. unfold token_get_or_create.
  destruct (filter _ (map_to_list ts)) as [|kv rest] eqn:Hf.
  - by rewrite Hfresh.
  - exfalso.
    assert (Hin : kv ∈ filter (λ kv : string * Z, kv.2 = uid) (map_to_list ts))
      by (rewrite Hf; by left).
    apply list_elem_of_filter in Hin as [Huid Hin]. destruct kv as [k v].
    apply elem_of_map_to_list in Hin. cbn in Huid. subst v. by apply (Hnone k).
Qed.

Section RegisterSuccess.
Context {hashers : Hashers}.
Variables (fresh : string) (request : HttpRequest) (w : World) (uid : Z) (su : CustomUser).

Local Abbreviation name := (dict_get (data request) "username").
Local Abbreviation pwd := (dict_get (data request) "password").
Local Abbreviation created := (registered request w).
Local Abbreviation after := (after_register fresh request w).

Hypothesis Hdb : db_ok w.
Hypothesis Htoken : tokens w !! dict_get (data request) "token" = Some uid.
Hypothesis Hsu : get_by_pk uid (users w) = inr su.
Hypothesis Hsuper : is_superuser su = true.
Hypothesis Hname : name ≠ "".
Hypothesis Hpwd : pwd ≠ "".
Hypothesis Hfree : ∀ u, u ∈ users w → username u ≠ name.
Hypothesis Hfresh : tokens w !! fresh = None.

Lemma register_created :
  RegisterView_post fresh request w
  = (Response [("user_pk", JInt (next_pk (users w))); ("token", JStr fresh)] HTTP_201_CREATED,
     after).
Proof.
  unfold after_register, registered.
  unfold RegisterView_post, token_get. rewrite Htoken, Hsu, Hsuper. cbn [negb].
  unfold truthy. rewrite !bool_decide_eq_false_2 by done. cbn [negb orb].
  rewrite (insert_user_new _ _ _ Hfree). cbn [pk tokens set_users].
  rewrite token_get_or_create_new; [done| |done].
  intros k Hk. destruct Hdb as [_ Hfk]. apply Hfk in Hk.
  apply list_elem_of_fmap in Hk as (u & Heq & Hin).
  pose proof (next_pk_above _ _ Hin). lia.
Qed.

Lemma register_created_users_ok : users_ok (users w ++ [created])%list.
Proof.
  unfold after_register, registered.
  destruct Hdb as [Hok _]. apply users_ok_snoc; [done| |].
  - intros v Hv. pose proof (next_pk_above _ _ Hv). cbn. lia.
  - intros v Hv. by apply Hfree.
Qed.

Lemma register_created_su : su ∈ users w ∧ pk su = uid.
Proof.
  unfold after_register, registered.
  unfold get_by_pk in Hsu.
  destruct (filter _ (users w)) as [|x [|y rest]] eqn:Hf; [done| |done].
  injection Hsu as ->.
  assert (Hin : su ∈ filter (λ u, pk u = uid) (users w)) by (rewrite Hf; by left).
  apply list_elem_of_filter in Hin as [? ?]. done.
Qed.

(** X16: a registration with a superuser's token, a user name that is not
    empty and not taken, a password that is not empty and a token key that
    is not in use is answered 201 with the new user's key and token. The new
    user is appended to the table with the next key, the encoded password,
    no privilege, no block and no secret, and the token is stored for it;
    the database stays consistent, and the user can be found by name and
    the token by key. *)
Theorem register_creates_user :
  RegisterView_post fresh request w
  = (Response [("user_pk", JInt (next_pk (users w))); ("token", JStr fresh)] HTTP_201_CREATED,
     after)
  ∧ db_ok after
  ∧ get_by_username (Some name) (users after) = inr created
  ∧ token_get fresh (tokens after) = inr (pk created).
Proof.
  unfold after_register, registered.
  split; [apply register_created|].
  pose proof register_created_users_ok as Hok'.
  split; [split; [done|]|split].
  - intros k i. cbn [tokens users set_tokens set_users]. rewrite fmap_app.
    destruct (decide (k = fresh)) as [->|Hne].
    + rewrite lookup_insert_eq. intros [= <-]. apply elem_of_app. right. by left.
    + rewrite lookup_insert_ne by done. intros Hk. apply elem_of_app. left.
      destruct Hdb as [_ Hfk]. by apply (Hfk k).
  - cbn [users set_tokens set_users].
    apply (get_by_username_elem _ created Hok'). apply elem_of_app. right. by left.
  - unfold token_get. cbn [tokens set_tokens]. by rewrite lookup_insert_eq.
Qed.

(** X17: the same registration sent a second time, whatever key would be
    drawn for its token, is answered 400 and stores nothing more. *)
Theorem register_twice_bad_request (fresh' : string) :
  RegisterView_post fresh' request after = (Response [] HTTP_400_BAD_REQUEST, after).
Proof.
  unfold after_register, registered.
  destruct register_created_su as [Hin Hpk].
  pose proof register_created_users_ok as Hok'. unfold registered in Hok'.
  unfold RegisterView_post, token_get. cbn [tokens users set_tokens set_users].
  rewrite lookup_insert_ne by congruence. rewrite Htoken.
  rewrite <-Hpk, (get_by_pk_elem _ su Hok')
    by (apply elem_of_app; by left).
  rewrite Hsuper. cbn [negb]. unfold truthy.
  rewrite !bool_decide_eq_false_2 by done. cbn [negb orb].
  rewrite (insert_user_taken _ _ _ created); [done| |done].
  apply elem_of_app. right. by left.
Qed.

(** X18: the user a registration creates is not a superuser: a registration
    sent with the token just issued is answered 401 and stores nothing. *)
Theorem registered_user_cannot_register (fresh' : string) (request' : HttpRequest) :
  dict_get (data request') "token" = fresh →
  RegisterView_post fresh' request' after = (Response [] HTTP_401_UNAUTHORIZED, after).
Proof.
  unfold after_register, registered.
  intros Hkey.
  pose proof register_created_users_ok as Hok'. unfold registered in Hok'.
  unfold RegisterView_post, token_get. rewrite Hkey.
  cbn [tokens users set_tokens set_users]. rewrite lookup_insert_eq.
  change (next_pk (users w)) with (pk created) at 1. unfold registered.
  rewrite (get_by_pk_elem _ _ Hok')
    by (apply elem_of_app; right; by left).
  done.
Qed.

End RegisterSuccess.

Lemma register_creates_user_witness :
  let request := api_request [("token", "token-of-admin"); ("username", "user1");
                              ("password", "pwd1")] in
  RegisterView_post (hashers := test_hashers) "fresh" request logged_in
  = (Response [("user_pk", JInt (next_pk (users logged_in))); ("token", JStr "fresh")]
              HTTP_201_CREATED,
     after_register (hashers := test_hashers) "fresh" request logged_in)
  ∧ db_ok (after_register (hashers := test_hashers) "fresh" request logged_in)
  ∧ get_by_username (Some (dict_get (data request) "username"))
      (users (after_register (hashers := test_hashers) "fresh" request logged_in))
    = inr (registered (hashers := test_hashers) request logged_in)
  ∧ token_get "fresh"
      (tokens (after_register (hashers := test_hashers) "fresh" request logged_in))
    = inr (pk (registered (hashers := test_hashers) request logged_in)).
Proof.
  apply (register_creates_user (hashers := test_hashers) "fresh" _ logged_in 2 admin);
    try reflexivity; try (vm_compute; discriminate).
  - apply (bool_decide_unpack _). vm_compute. exact I.
  - apply (proj1 (Forall_forall _ _)). apply (bool_decide_unpack _). vm_compute. exact I.
Defined.

Lemma register_twice_bad_request_witness :
  let request := api_request [("token", "token-of-admin"); ("username", "user1");
                              ("password", "pwd1")] in
  RegisterView_post (hashers := test_hashers) "another" request
    (after_register (hashers := test_hashers) "fresh" request logged_in)
  = (Response [] HTTP_400_BAD_REQUEST,
     after_register (hashers := test_hashers) "fresh" request logged_in).
Proof.
  apply (register_twice_bad_request (hashers := test_hashers) "fresh" _ logged_in 2 admin);
    try reflexivity; try (vm_compute; discriminate).
  - apply (bool_decide_unpack _). vm_compute. exact I.
  - apply (proj1 (Forall_forall _ _)). apply (bool_decide_unpack _). vm_compute. exact I.
Defined.

Lemma registered_user_cannot_register_witness :
  let request := api_request [("token", "token-of-admin"); ("username", "user1");
                              ("password", "pwd1")] in
  RegisterView_post (hashers := test_hashers) "another"
    (api_request [("token", "fresh"); ("username", "user2"); ("password", "pwd2")])
    (after_register (hashers := test_hashers) "fresh" request logged_in)
  = (Response [] HTTP_401_UNAUTHORIZED,
     after_register (hashers := test_hashers) "fresh" request logged_in).
Proof.
  apply (registered_user_cannot_register (hashers := test_hashers) "fresh" _ logged_in);
    try reflexivity.
  - apply (bool_decide_unpack _). vm_compute. exact I.
  - apply (proj1 (Forall_forall _ _)). apply (bool_decide_unpack _). vm_compute. exact I.
Defined.

(** ** What the views keep *)

Lemma get_by_pk_found (i : Z) (us : list CustomUser) (u : CustomUser) :
  get_by_pk i us = inr u → u ∈ us ∧ pk u = i.
Proof.
  unfold get_by_pk.
  destruct (filter _ us) as [|x [|y rest]] eqn:Hf; [done| |done].
  intros [= ->].
  assert (Hin : u ∈ filter (λ v, pk v = i) us) by (rewrite Hf; by left).
  apply list_elem_of_filter in Hin as [? ?]. done.
Qed.

Lemma insert_user_inr (name encoded : string) (us us' : list CustomUser) (u : CustomUser) :
  insert_user name encoded us = inr (u, us') →
  us' = (us ++ [u])%list ∧ pk u = next_pk us ∧ username u = name
  ∧ ∀ v, v ∈ us → username v ≠ name.
Proof.
  unfold insert_user. case_bool_decide as Hex; [done|]. intros [= <- <-].
  repeat split. intros v Hv Hname. apply Hex, Exists_exists. eauto.
Qed.

Lemma token_get_or_create_inr (uid : Z) (fresh k : string) (ts ts' : gmap string Z) :
  token_get_or_create uid fresh ts = inr (k, ts') →
  ts' = ts ∨ (ts !! fresh = None ∧ ts' = <[fresh := uid]> ts).
Proof.
  unfold token_get_or_create.
  destruct (filter _ (map_to_list ts)) as [|kv [|kv' rest]]; [| |done].
  - destruct (ts !! fresh) eqn:Hfresh; [done|]. intros [= <- <-]. by right.
  - intros [= <- <-]. by left.
Qed.

(** The world [RegisterView.post] leaves is the one it found, or that one
    with the new row appended and possibly the new token added. *)
Lemma register_world `{!Hashers} (fresh : string) (request : HttpRequest) (w : World) :
  (RegisterView_post fresh request w).2 = w
  ∨ ∃ u, pk u = next_pk (users w)
         ∧ (∀ v, v ∈ users w → username v ≠ username u)
         ∧ ((RegisterView_post fresh request w).2 = set_users (users w ++ [u])%list w
            ∨ (tokens w !! fresh = None
               ∧ (RegisterView_post fresh request w).2
                 = set_tokens (<[fresh := pk u]> (tokens w))
                              (set_users (users w ++ [u])%list w))).
Proof.
  unfold RegisterView_post.
  destruct (token_get _ _) as [e|uid]; [by left|].
  destruct (get_by_pk _ _) as [e|su]; [by left|].
  destruct (negb (is_superuser su)); [by left|].
  destruct (negb (truthy _) || negb (truthy _)); [by left|].
  destruct (insert_user _ _ _) as [e|[u us']] eqn:Hins; [by destruct e; left|].
  apply insert_user_inr in Hins as (-> & Hpk & Hname & Hfree).
  right. exists u. split; [done|]. split; [by rewrite Hname|].
  cbn [tokens set_users].
  destruct (token_get_or_create _ _ _) as [e|[k ts']] eqn:Htok; [by destruct e; left|].
  apply token_get_or_create_inr in Htok as [->|[Hfresh ->]].
  - left. cbn [snd]. by destruct w.
  - right. done.
Qed.

(** X19: whatever the request, [register] removes and alters nothing that
    is stored: the user table it leaves begins with the rows it found, in
    their order, and every token it found is still there with its owner. *)
Theorem register_keeps_what_is_stored `{!Hashers} (fresh : string) (request : HttpRequest)
        (w : World) :
  users w `prefix_of` users (RegisterView_post fresh request w).2
  ∧ tokens w ⊆ tokens (RegisterView_post fresh request w).2.
Proof.
  destruct (register_world fresh request w) as [->|(u & _ & _ & [->|[Hfresh ->]])].
  - done.
  - cbn [users tokens set_users]. split; [by apply prefix_app_r|done].
  - cbn [users tokens set_users set_tokens].
    split; [by apply prefix_app_r|by apply insert_subseteq].
Qed.

Lemma save_user_pks (u' : CustomUser) (us : list CustomUser) :
  pk <$> save_user u' us = pk <$> us.
Proof.
  unfold save_user. rewrite <-list_fmap_compose.
  apply Forall_fmap_ext_1, Forall_forall. intros x _. unfold compose.
  by case_bool_decide.
Qed.

(** Rewriting the row of a stored user with a row of the same key and name
    keeps the table consistent, puts the new row in the table and leaves the
    other rows alone. *)
Lemma save_user_ok (us : list CustomUser) (u u' : CustomUser) :
  users_ok us → u ∈ us → pk u' = pk u → username u' = username u →
  users_ok (save_user u' us) ∧ u' ∈ save_user u' us
  ∧ ∀ v, v ∈ us → v ≠ u → v ∈ save_user u' us.
Proof.
  intros [Hpk Hname] Hin Hkey Hsame.
  assert (Hrows : save_user u' us = (λ x, if bool_decide (x = u) then u' else x) <$> us).
  { unfold save_user. apply Forall_fmap_ext_1, Forall_forall. intros x Hx.
    rewrite Hkey. destruct (decide (x = u)) as [->|Hne].
    - by rewrite !bool_decide_eq_true_2.
    - rewrite !bool_decide_eq_false_2; [done|done|].
      intros Heq. apply Hne. by apply (NoDup_fmap_elem_inj pk us). }
  split; [split|split].
  - by rewrite save_user_pks.
  - replace (username <$> _) with (username <$> us); [done|].
    rewrite Hrows, <-list_fmap_compose. apply Forall_fmap_ext_1, Forall_forall.
    intros x Hx. unfold compose. case_bool_decide; by subst.
  - rewrite Hrows. apply list_elem_of_fmap. exists u. split; [|done].
    by rewrite bool_decide_eq_true_2.
  - intros v Hv Hne. rewrite Hrows. apply list_elem_of_fmap. exists v.
    split; [|done]. by rewrite bool_decide_eq_false_2.
Qed.

Section EnrolmentProperties.
Context {deployment : Deployment}.


(** X21: [dobleautenticacion] stores nothing for an anonymous client (who
    is sent to the login page), for a POST (which is redirected to the home
    page) and for an id that no stored user has (which is answered 404). *)
Theorem enrolment_refused_changes_nothing (secreto : string) (request : HttpRequest)
        (user_id : Z) (w : World) :
  user request = AnonymousUser ∨ method request = "POST"
  ∨ (∀ u, u ∈ users w → pk u ≠ user_id) →
  dobleautenticacion secreto request user_id w
  = (match user request with
     | AnonymousUser => LoginRequired
     | Authenticated _ =>
         if bool_decide (method request = "POST") then Answer (redirect (Reverse "home" []))
         else Answer NotFound404
     end, w).
Proof.
  intros Hcase. unfold dobleautenticacion.
  destruct (user request) as [|client]; [done|].
  case_bool_decide as Hpost; [done|].
  destruct Hcase as [?|[?|Hnone]]; [done..|].
  by rewrite (get_by_pk_unknown _ _ Hnone).
Qed.

End EnrolmentProperties.

Section EnrolmentThenLogin.
Context {deployment : Deployment} {form : AuthenticationForm} {unicode : Unicode}.

(** X22: enrolment takes effect at once, without any code having been
    confirmed. After [dobleautenticacion] has stored a non-empty secret for
    a user, a login of that user which the login form accepts is no longer
    enough: it is answered by the redirect to [comprobarqr] and leaves the
    session unauthenticated; and [comprobarqr] logs the user in on the code
    the engine derives from the new secret at that moment. *)
Theorem enrolment_takes_effect_at_once (secreto code : string)
        (request login_request code_request : HttpRequest)
        (w : World) (client target : CustomUser) (now : Z) :
  users_ok (users w) →
  target ∈ users w →
  user request = Authenticated client →
  method request ≠ "POST" →
  secreto ≠ "" →
  form_get_user (POST login_request)
                (users (dobleautenticacion secreto request (pk target) w).2)
  = Some (set_secret (Some secreto) target) →
  method code_request = "POST" →
  POST code_request !! "codigo" = Some code →
  Pyotp.totp_now (Some secreto) now = inr code →
  let w1 := (dobleautenticacion secreto request (pk target) w).2 in
  let w2 := (Custom_loginView_post login_request w1).2 in
  (Custom_loginView_post login_request w1).1
  = redirect (Reverse "comprobarqr" [("user_id", pk target)])
  ∧ session w2 = None
  ∧ comprobarqr code_request (pk target) now w2
    = (render "home.html", set_session (Some (pk target)) w2).
Proof.
  intros Hok Hin Hclient Hget Hsecreto Hform Hpost Hcode Hnow w1 w2.
  set (target' := set_secret (Some secreto) target) in *.
  assert (Hw1 : w1 = set_users (save_user target' (users w)) w).
  { unfold w1, dobleautenticacion. rewrite Hclient, bool_decide_eq_false_2 by done.
    by rewrite (get_by_pk_elem _ _ Hok Hin). }
  fold w1 in Hform.
  destruct (save_user_ok (users w) target target' Hok Hin) as (Hok' & Hin' & _); [done..|].
  assert (Hlogin : Custom_loginView_post login_request w1
                   = (redirect (Reverse "comprobarqr" [("user_id", pk target)]),
                      auth_logout (auth_login target' w1))).
  { unfold Custom_loginView_post. rewrite Hform.
    unfold form_valid, get_success_url. cbn [user].
    assert (Hset : truthy_opt (secret target') = true).
    { unfold target'. cbn. unfold truthy. by rewrite bool_decide_eq_false_2. }
    by rewrite Hset. }
  unfold w2. rewrite Hlogin. cbn [fst snd]. split; [done|]. split; [done|].
  unfold comprobarqr. rewrite bool_decide_eq_true_2 by done.
  rewrite Hw1. cbn [users set_users auth_logout auth_login set_session].
  pose proof (get_by_pk_elem _ target' Hok' Hin') as Hfind.
  change (pk target') with (pk target) in Hfind.
  rewrite Hfind. change (secret target') with (Some secreto).
  rewrite Hnow, Hcode, (verify_spec _ _ _ _ Hnow).
  change (Pyotp.py_str (Some code)) with code.
  rewrite (NFKC_ascii code) by (by eapply generate_otp_ascii).
  by rewrite bool_decide_eq_true_2.
Qed.

End EnrolmentThenLogin.


Lemma enrolment_refused_changes_nothing_witness :
  dobleautenticacion (deployment := test_deployment) "GEZDGNBVGY3TQOJQGEZDGNBVGY3TQOJQ"
    (mkRequest "POST" (Authenticated voter1) ∅ ∅) 1 setUp
  = (if bool_decide ("POST" = "POST") then Answer (redirect (Reverse "home" []))
     else Answer NotFound404, setUp).
Proof.
  apply (enrolment_refused_changes_nothing (deployment := test_deployment)
           "GEZDGNBVGY3TQOJQGEZDGNBVGY3TQOJQ"
           (mkRequest "POST" (Authenticated voter1) ∅ ∅) 1 setUp).
  right. left. reflexivity.
Defined.

Lemma enrolment_takes_effect_at_once_witness :
  Pyotp.totp_now (Some "GEZDGNBVGY3TQOJQGEZDGNBVGY3TQOJQ") 59 = inr "287082"
  ∧ ∀ unicode : Unicode,
      let w1 := (dobleautenticacion (deployment := test_deployment)
                   "GEZDGNBVGY3TQOJQGEZDGNBVGY3TQOJQ" get_as_voter1 (pk voter1) setUp).2 in
      let w2 := (Custom_loginView_post (form := test_form)
                   (form_request [("username", "voter1"); ("password", "123")]) w1).2 in
      (Custom_loginView_post (form := test_form)
         (form_request [("username", "voter1"); ("password", "123")]) w1).1
      = redirect (Reverse "comprobarqr" [("user_id", pk voter1)])
      ∧ session w2 = None
      ∧ comprobarqr (form_request [("codigo", "287082")]) (pk voter1) 59 w2
        = (render "home.html", set_session (Some (pk voter1)) w2).
Proof.
  split; [vm_compute; reflexivity|]. intros unicode.
  apply (enrolment_takes_effect_at_once (deployment := test_deployment)
           (form := test_form)
           "GEZDGNBVGY3TQOJQGEZDGNBVGY3TQOJQ" "287082"
           get_as_voter1 (form_request [("username", "voter1"); ("password", "123")])
           (form_request [("codigo", "287082")]) setUp voter1 voter1 59);
    try reflexivity; try (vm_compute; discriminate).
  - apply (bool_decide_unpack _). vm_compute. exact I.
  - unfold setUp; simpl. set_solver.
Defined.

(** ** The consistency of the database is an invariant *)

Lemma db_ok_same_keys (w w' : World) :
  db_ok w → users_ok (users w') → pk <$> users w' = pk <$> users w →
  tokens w' = tokens w → db_ok w'.
Proof.
  intros [_ Hfk] Hok Hpks Htokens. split; [done|].
  intros k uid. rewrite Htokens, Hpks. apply Hfk.
Qed.

Lemma Custom_loginView_post_frame `{!AuthenticationForm} (request : HttpRequest) (w : World) :
  users (Custom_loginView_post request w).2 = users w
  ∧ tokens (Custom_loginView_post request w).2 = tokens w.
Proof.
  unfold Custom_loginView_post. destruct (form_get_user _ _) as [u|]; [|done].
  unfold form_valid, get_success_url. cbn [user].
  by destruct (truthy_opt (secret u)).
Qed.

(** X23: every view keeps the database consistent. From a world in which
    keys and names of users are unique and every token belongs to a stored
    user, each of [login2], the login form, [comprobarqr], [getUser],
    [logout], [register] and [dobleautenticacion] leads, whatever the
    request, to a world of which the same holds. *)
Theorem views_keep_db_ok (w : World) :
  db_ok w →
  (∀ (settings : Settings) request, db_ok (login2 request w).2)
  ∧ (∀ (form : AuthenticationForm) request, db_ok (Custom_loginView_post request w).2)
  ∧ (∀ (unicode : Unicode) request user_id now, db_ok (comprobarqr request user_id now w).2)
  ∧ (∀ request, db_ok (GetUserView_post request w).2)
  ∧ (∀ request, db_ok (LogoutView_post request w).2)
  ∧ (∀ (hashers : Hashers) fresh request, db_ok (RegisterView_post fresh request w).2)
  ∧ (∀ (deployment : Deployment) secreto request user_id,
       db_ok (dobleautenticacion secreto request user_id w).2).
Proof.
  intros Hdb. pose proof Hdb as [Hok Hfk].
  split; [|split; [|split; [|split; [|split; [|split]]]]].
  - intros settings request. unfold login2. rewrite login2_guard. unfold login2_failed.
    cbn [user_failed_login_attempts set_attempts users].
    destruct (_ <=? _); [|done].
    destruct (get_by_username _ _) as [e|usuario] eqn:Hget; [done|].
    apply get_by_username_found in Hget as [Hin _]. cbn [snd].
    apply (db_ok_same_keys w); [done| | |done].
    + by apply block_account_ok.
    + apply save_user_pks.
  - intros form request.
    destruct (Custom_loginView_post_frame request w) as [Hu Ht].
    apply (db_ok_same_keys w); [done| |by rewrite Hu|done]. by rewrite Hu.
  - intros unicode request user_id now.
    destruct (comprobarqr_frame request user_id now w) as (Hu & Ht & _).
    apply (db_ok_same_keys w); [done| |by rewrite Hu|done]. by rewrite Hu.
  - intros request. unfold GetUserView_post.
    destruct (token_get _ _); [done|]. by destruct (get_by_pk _ _).
  - intros request. unfold LogoutView_post. cbn [snd].
    destruct (token_get _ _); [done|]. split; [done|].
    intros k uid. cbn [tokens users set_tokens]. intros Hk.
    apply lookup_delete_Some in Hk as [_ Hk]. by apply (Hfk k).
  - intros hashers fresh request.
    destruct (register_world fresh request w)
      as [->|(u & Hpk & Hfree & [->|[Hfresh ->]])]; [done| |].
    + assert (Hok' : users_ok (users w ++ [u])%list).
      { apply users_ok_snoc; [done| |done].
        intros v Hv. pose proof (next_pk_above _ _ Hv). lia. }
      split; [done|]. intros k uid Hk. cbn [tokens users set_users] in *.
      rewrite fmap_app. apply elem_of_app. left. by apply (Hfk k).
    + assert (Hok' : users_ok (users w ++ [u])%list).
      { apply users_ok_snoc; [done| |done].
        intros v Hv. pose proof (next_pk_above _ _ Hv). lia. }
      split; [done|]. intros k uid. cbn [tokens users set_users set_tokens].
      rewrite fmap_app. intros Hk.
      apply lookup_insert_Some in Hk as [[_ <-]|[_ Hk]].
      * apply elem_of_app. right. by left.
      * apply elem_of_app. left. by apply (Hfk k).
  - intros deployment secreto request user_id. unfold dobleautenticacion.
    destruct (user request) as [|client]; [done|].
    case_bool_decide; [done|].
    destruct (get_by_pk _ _) as [e|u] eqn:Hget; [by destruct e|].
    apply get_by_pk_found in Hget as [Hin _]. cbn [snd].
    apply (db_ok_same_keys w); [done| | |done].
    + by apply (save_user_ok (users w) u).
    + apply save_user_pks.
Qed.

Lemma views_keep_db_ok_witness :
  (∀ (settings : Settings) request, db_ok (login2 request logged_in).2)
  ∧ (∀ (form : AuthenticationForm) request,
       db_ok (Custom_loginView_post request logged_in).2)
  ∧ (∀ (unicode : Unicode) request user_id now,
       db_ok (comprobarqr request user_id now logged_in).2)
  ∧ (∀ request, db_ok (GetUserView_post request logged_in).2)
  ∧ (∀ request, db_ok (LogoutView_post request logged_in).2)
  ∧ (∀ (hashers : Hashers) fresh request, db_ok (RegisterView_post fresh request logged_in).2)
  ∧ (∀ (deployment : Deployment) secreto request user_id,
       db_ok (dobleautenticacion secreto request user_id logged_in).2).
Proof.
  apply (views_keep_db_ok logged_in).
  apply (bool_decide_unpack _). vm_compute. exact I.
Defined.
